(** * Mast SEO + Admin bot: recipient store, flood guard, guard gate, broadcast

    A shallow embedding of the stateful core of [1000+line.py]:
    the [DB] class (tables [users] and [broadcasts]), the [Flood] limiter,
    [is_admin], [guard] and [broadcast_cmd]; then of [esc_md],
    [uptime_str], the commands [ban_cmd], [unban_cmd] and [stats_cmd], and
    the hashtag generator with [hashtags_cmd].

    Conventions of the embedding.
    - A Python [str] is the list of its Unicode code points.
    - A SQL table with an [INTEGER PRIMARY KEY] is a finite map from the key
      to the remaining columns; the dict [Flood.bucket] is a finite map too.
    - Every method that reads [int(time.time())] takes the value it reads as
      the argument [ts] (or [now]); a caller that triggers several reads
      takes one argument per read.
    - Messages handed to the transport are recorded, in order, in a trace.
      The wording of the notices is not modelled: a notice is a constructor
      that carries the values interpolated into its text.
    - Handlers run one at a time, as [Application.builder()] sets them up
      when [concurrent_updates] is not asked for: a handler is a function
      from the state before it to the state after it. *)

From stdpp Require Import gmap list fin_maps sorting strings.

#[local] Open Scope Z_scope.

(** ** Python strings *)

Abbreviation text := (list N).

Module Py.

(** [str.isspace] on one code point: the white-space set of CPython 3. *)
Definition isspace (c : N) : bool :=
  ((9 <=? c) && (c <=? 13) || (28 <=? c) && (c <=? 32)
   || (c =? 133) || (c =? 160) || (c =? 5760)
   || (8192 <=? c) && (c <=? 8202)
   || (c =? 8232) || (c =? 8233) || (c =? 8239) || (c =? 8287)
   || (c =? 12288))%N.

Fixpoint lstrip (s : text) : text :=
  match s with
  | c :: s' => if isspace c then lstrip s' else s
  | [] => []
  end.

Definition rstrip (s : text) : text := reverse (lstrip (reverse s)).

(** [s.strip()] *)
Definition strip (s : text) : text := rstrip (lstrip s).

(** [" ".join(parts)] *)
Fixpoint join (parts : list text) : text :=
  match parts with
  | [] => []
  | [p] => p
  | p :: rest => p ++ 32%N :: join rest
  end.

(** [x or ""] for an optional string. *)
Definition or_empty (x : option text) : text :=
  match x with
  | Some s => s
  | None => []
  end.

(** Truth value of an optional string: [None] and [""] are false. *)
Definition truthy (x : option text) : bool :=
  match x with
  | Some (_ :: _) => true
  | _ => false
  end.

End Py.

(** ** The tables *)

(** Columns of [users] besides the key [user_id]. *)
Module users.
Record row := Row {
  first_name : text;
  username : text;
  joined_at : Z;
  last_seen : Z;
  is_banned : Z;
  ban_reason : option text
}.
End users.

(** Columns of [broadcasts] besides the key [id]. *)
Module broadcasts.
Record row := Row {
  admin_id : Z;
  message : text;
  created_at : Z;
  sent_ok : Z;
  sent_fail : Z
}.
End broadcasts.

Record Store := MkStore {
  users_tbl : gmap Z users.row;
  broadcasts_tbl : gmap Z broadcasts.row
}.

(** ** class DB *)

(** The integers sqlite3 binds to a parameter of a statement are those of
    64 signed bits.  A method called with a [user_id] outside them raises
    [OverflowError] before the statement runs, and the file stays as it
    was.  The methods below give the effect of the statement on an id that
    binds; [with_id] puts the test in front, for the callers that pass an
    id they read from a message. *)
Definition sqlite_int (n : Z) : bool :=
  (-9223372036854775808 <=? n) && (n <=? 9223372036854775807).

(** The result of a method of [DB] called with [user_id]; [None] stands
    for the [OverflowError]. *)
Definition with_id {A} (user_id : Z) (result : A) : option A :=
  if sqlite_int user_id then Some result else None.

Module DB.

(** The state left by [_init] on a fresh file. *)
Definition init : Store := MkStore ∅ ∅.

Definition upsert_user (user_id : Z) (first_name username : option text)
    (ts : Z) (d : Store) : Store :=
  let fn := Py.or_empty first_name in
  let un := Py.or_empty username in
  let r' :=
    match users_tbl d !! user_id with
    | None => users.Row fn un ts ts 0 None
    | Some r =>
        users.Row fn un (users.joined_at r) ts
                  (users.is_banned r) (users.ban_reason r)
    end in
  MkStore (<[user_id := r']> (users_tbl d)) (broadcasts_tbl d).

Definition set_last_seen (user_id : Z) (ts : Z) (d : Store) : Store :=
  match users_tbl d !! user_id with
  | None => d
  | Some r =>
      let r' := users.Row (users.first_name r) (users.username r)
                          (users.joined_at r) ts
                          (users.is_banned r) (users.ban_reason r) in
      MkStore (<[user_id := r']> (users_tbl d)) (broadcasts_tbl d)
  end.

Definition is_banned (user_id : Z) (d : Store) : bool * option text :=
  match users_tbl d !! user_id with
  | None => (false, None)
  | Some r => (users.is_banned r =? 1, users.ban_reason r)
  end.

(** The effect of [ban] for a [user_id] that binds; for any other the
    call raises and writes nothing ([with_id]). *)
Definition ban (user_id : Z) (reason : text) (ts : Z) (d : Store) : Store :=
  let r' :=
    match users_tbl d !! user_id with
    | None => users.Row [] [] ts ts 1 (Some reason)
    | Some r =>
        users.Row (users.first_name r) (users.username r)
                  (users.joined_at r) (users.last_seen r) 1 (Some reason)
    end in
  MkStore (<[user_id := r']> (users_tbl d)) (broadcasts_tbl d).

(** The effect of [unban] for a [user_id] that binds; for any other the
    call raises and writes nothing ([with_id]). *)
Definition unban (user_id : Z) (d : Store) : Store :=
  match users_tbl d !! user_id with
  | None => d
  | Some r =>
      let r' := users.Row (users.first_name r) (users.username r)
                          (users.joined_at r) (users.last_seen r) 0 None in
      MkStore (<[user_id := r']> (users_tbl d)) (broadcasts_tbl d)
  end.

(** [stats()] as the pair (users, banned). *)
Definition stats (d : Store) : nat * nat :=
  (size (users_tbl d),
   size (filter (λ kr, users.is_banned kr.2 = 1) (users_tbl d))).

(** The query has no [ORDER BY]: SQLite scans the table by its
    [INTEGER PRIMARY KEY], so the ids come in ascending order. *)
Definition user_ids_active (d : Store) : list Z :=
  merge_sort Z.le
    (map_to_list (filter (λ kr, users.is_banned kr.2 = 0) (users_tbl d))).*1.

(** The row id an [AUTOINCREMENT] key gives the next insertion: one more
    than the largest id in use, and 1 in an empty table. *)
Definition next_id (t : gmap Z broadcasts.row) : Z :=
  1 + foldr Z.max 0 (map_to_list t).*1.

(** Returns [cur.lastrowid] with the new state. *)
Definition log_broadcast (admin_id : Z) (message : text) (ts : Z)
    (d : Store) : Z * Store :=
  let bid := next_id (broadcasts_tbl d) in
  (bid,
   MkStore (users_tbl d)
           (<[bid := broadcasts.Row admin_id message ts 0 0]>
              (broadcasts_tbl d))).

Definition update_broadcast_result (bid ok fail : Z) (d : Store) : Store :=
  match broadcasts_tbl d !! bid with
  | None => d
  | Some r =>
      let r' := broadcasts.Row (broadcasts.admin_id r) (broadcasts.message r)
                               (broadcasts.created_at r) ok fail in
      MkStore (users_tbl d) (<[bid := r']> (broadcasts_tbl d))
  end.

End DB.

(** ** Flood control *)

Record Flood := MkFlood {
  window : Z;
  limit : Z;
  bucket : gmap Z (list Z)
}.

(** [Flood()] with the defaults of the dataclass. *)
Definition Flood_default : Flood := MkFlood 8 7 ∅.

(** [self.hit(uid)], where [now] is the clock reading of the call. *)
Definition hit (uid : Z) (now : Z) (self : Flood) : bool * Flood :=
  let lst := default [] (bucket self !! uid) in
  let lst := filter (λ t, now - t ≤ window self) lst in
  let lst := lst ++ [now] in
  (bool_decide (limit self < Z.of_nat (length lst)),
   MkFlood (window self) (limit self) (<[uid := lst]> (bucket self))).

(** ** Updates and the trace of transport calls *)

Record User := MkUser {
  id : Z;
  user_first_name : option text;
  user_username : option text
}.

Record Update := MkUpdate {
  effective_user : option User
}.

Inductive notice :=
| BannedNotice (reason : option text)
| FloodNotice
| AdminOnly
| BroadcastUsage
| NoUsersFound
| BroadcastStarted (users : nat) (bid : Z)
| BroadcastProgress (i total : nat) (ok fail : Z)
| BroadcastDone (total : nat) (ok fail bid : Z).

Inductive effect :=
| Reply (n : notice)
| Edit (n : notice)
| Send (uid : Z) (msg : text).

(** The process state: the database file, the global [FLOOD] and the
    transport calls made so far, oldest first. *)
Record World := MkWorld {
  db : Store;
  FLOOD : Flood;
  out : list effect
}.

Definition emit (e : effect) (w : World) : World :=
  MkWorld (db w) (FLOOD w) (out w ++ [e]).

(** ** Utilities *)

Definition is_admin (OWNER_ID : Z) (update : Update) : bool :=
  match effective_user update with
  | None => false
  | Some u => negb (OWNER_ID =? 0) && (id u =? OWNER_ID)
  end.

(** The characters [esc_md] puts a backslash before. *)
Definition md_special (c : N) : bool :=
  bool_decide (c ∈ [95; 42; 91; 93; 40; 41; 126; 96; 62; 35; 43; 45; 61;
                    124; 123; 125; 46; 33]%N).

Fixpoint esc_md_str (s : text) : text :=
  match s with
  | [] => []
  | c :: s' => if md_special c then 92%N :: c :: esc_md_str s'
               else c :: esc_md_str s'
  end.

Definition esc_md (s : option text) : text :=
  match s with
  | None => []
  | Some s => esc_md_str s
  end.

(** ** The guard gate *)

(** [t_upsert], [t_seen] and [t_hit] are the clock readings of
    [upsert_user], [set_last_seen] and [FLOOD.hit].  The replies sit in a
    [try] whose handler is [pass]: a failed reply changes nothing else. *)
Definition guard (OWNER_ID : Z) (update : Update) (t_upsert t_seen t_hit : Z)
    (w : World) : bool * World :=
  match effective_user update with
  | None => (true, w)
  | Some u =>
      let d := DB.upsert_user (id u) (Some (Py.or_empty (user_first_name u)))
                 (Some (Py.or_empty (user_username u))) t_upsert (db w) in
      let d := DB.set_last_seen (id u) t_seen d in
      let w := MkWorld d (FLOOD w) (out w) in
      let '(banned, reason) := DB.is_banned (id u) d in
      if banned then
        let shown := if Py.truthy reason then Some (esc_md reason) else None in
        (false, emit (Reply (BannedNotice shown)) w)
      else if negb (is_admin OWNER_ID update) then
        let '(over, f) := hit (id u) t_hit (FLOOD w) in
        let w := MkWorld (db w) f (out w) in
        if over then (false, emit (Reply FloodNotice) w) else (true, w)
      else (true, w)
  end.

(** ** The broadcast command *)

(** What the run cannot decide by itself.  [send_ok i uid] tells whether the
    [i]-th [send_message] of the run (counted from 1, addressed to [uid])
    returns or raises; [reply_ok n] tells the same of the [reply_text] or
    [edit_text] that carries notice [n]; [progress_due i] is the outcome of
    the test [time.time() - last_edit > 2.5] in iteration [i]. *)
Record Env := MkEnv {
  send_ok : nat → Z → bool;
  reply_ok : notice → bool;
  progress_due : nat → bool
}.

(** How a handler ends: it returns, or an exception leaves it. *)
Inductive completion := Returned | Raised.

(** A transport call outside any [try]. *)
Definition say (env : Env) (e : effect) (n : notice) (w : World)
    : completion * World :=
  (if reply_ok env n then Returned else Raised, emit e w).

(** The [for] loop of [broadcast_cmd], entered at iteration [i] with the
    counters [ok] and [fail].  The progress edit sits in a [try] whose
    handler is [pass]; [asleep] has no effect on the state. *)
Fixpoint deliver (env : Env) (msg : text) (total : nat) (i : nat)
    (user_ids : list Z) (ok fail : Z) (w : World) : Z * Z * World :=
  match user_ids with
  | [] => (ok, fail, w)
  | uid :: rest =>
      let w := emit (Send uid msg) w in
      let ok' := if send_ok env i uid then ok + 1 else ok in
      let fail' := if send_ok env i uid then fail else fail + 1 in
      let w := if progress_due env i
               then emit (Edit (BroadcastProgress i total ok' fail')) w
               else w in
      deliver env msg total (S i) rest ok' fail' w
  end.

(** The first write of a run: [log_broadcast] for the operator [admin]. *)
Definition broadcast_begin (admin : Z) (msg : text) (t_log : Z) (w : World)
    : Z * World :=
  let '(bid, d) := DB.log_broadcast admin msg t_log (db w) in
  (bid, MkWorld d (FLOOD w) (out w)).

(** The last write of a run: [update_broadcast_result]. *)
Definition broadcast_end (bid ok fail : Z) (w : World) : World :=
  MkWorld (DB.update_broadcast_result bid ok fail (db w)) (FLOOD w) (out w).

(** [broadcast_cmd] from [msg = " ".join(context.args).strip()] to its end;
    [t_log] is the clock reading of [log_broadcast]. *)
Definition broadcast (env : Env) (update : Update) (args : list text)
    (t_log : Z) (w : World) : completion * World :=
  let msg := Py.strip (Py.join args) in
  match msg with
  | [] => say env (Reply BroadcastUsage) BroadcastUsage w
  | _ :: _ =>
      let user_ids := DB.user_ids_active (db w) in
      match user_ids with
      | [] => say env (Reply NoUsersFound) NoUsersFound w
      | _ :: _ =>
          match effective_user update with
          | None => (Raised, w)
          | Some u =>
              let '(bid, w) := broadcast_begin (id u) msg t_log w in
              let total := length user_ids in
              let started := BroadcastStarted total bid in
              match say env (Reply started) started w with
              | (Raised, w) => (Raised, w)
              | (Returned, w) =>
                  let '(ok, fail, w) :=
                    deliver env msg total 1 user_ids 0 0 w in
                  let w := broadcast_end bid ok fail w in
                  let done := BroadcastDone total ok fail bid in
                  say env (Edit done) done w
              end
          end
      end
  end.

Definition broadcast_cmd (OWNER_ID : Z) (env : Env) (update : Update)
    (args : list text) (t_upsert t_seen t_hit t_log : Z) (w : World)
    : completion * World :=
  let '(pass, w) := guard OWNER_ID update t_upsert t_seen t_hit w in
  if negb pass then (Returned, w)
  else if negb (is_admin OWNER_ID update)
  then say env (Reply AdminOnly) AdminOnly w
  else broadcast env update args t_log w.

(** ** More of Python's strings *)

(** A literal made of ASCII characters. *)
Definition lit (s : string) : text :=
  Ascii.N_of_ascii <$> String.list_ascii_of_string s.

Fixpoint digits (u : Decimal.uint) : text :=
  match u with
  | Decimal.Nil => []
  | Decimal.D0 u => 48%N :: digits u
  | Decimal.D1 u => 49%N :: digits u
  | Decimal.D2 u => 50%N :: digits u
  | Decimal.D3 u => 51%N :: digits u
  | Decimal.D4 u => 52%N :: digits u
  | Decimal.D5 u => 53%N :: digits u
  | Decimal.D6 u => 54%N :: digits u
  | Decimal.D7 u => 55%N :: digits u
  | Decimal.D8 u => 56%N :: digits u
  | Decimal.D9 u => 57%N :: digits u
  end.

(** [str(n)] of an integer, and so [f"{n}"]. *)
Definition str_of_Z (n : Z) : text :=
  match Z.to_int n with
  | Decimal.Pos u => digits u
  | Decimal.Neg u => 45%N :: digits u
  end.

(** ** Uptime *)

(** [uptime_str()], where [seconds] is [int(time.time() - START_TIME)]. *)
Definition uptime_str (seconds : Z) : text :=
  let d := seconds / 86400 in
  let seconds := seconds mod 86400 in
  let h := seconds / 3600 in
  let seconds := seconds mod 3600 in
  let m := seconds / 60 in
  let s := seconds mod 60 in
  let parts := [] in
  let parts := if d =? 0 then parts else parts ++ [str_of_Z d ++ lit "d"] in
  let parts := if h =? 0 then parts else parts ++ [str_of_Z h ++ lit "h"] in
  let parts := if m =? 0 then parts else parts ++ [str_of_Z m ++ lit "m"] in
  let parts := parts ++ [str_of_Z s ++ lit "s"] in
  Py.join parts.

(** ** The moderation commands *)

(** What [ban_cmd], [unban_cmd] and [stats_cmd] say to the caller. *)
Inductive admin_notice :=
| AdminOnlyNotice
| BanUsage
| UnbanUsage
| NotANumber
| BannedDone (uid : Z) (reason : text)
| UnbannedDone (uid : Z)
| StatsReport (users banned : nat) (uptime : text).

(** The transport calls a moderation command makes after the gate, in
    order: the [reply_text] to the caller, and the [send_message] to the
    target, which sits in a [try] whose handler is [pass]. *)
Inductive admin_call :=
| AReply (n : admin_notice)
| ANotify (uid : Z) (msg : text).

(** A [reply_text] outside any [try]; [ok] tells whether it returns. *)
Definition answer (ok : bool) (n : admin_notice) (w : World)
    : completion * World * list admin_call :=
  (if ok then Returned else Raised, w, [AReply n]).

(** [ban_cmd].  [int] is Python's [int] on a string, [None] standing for
    [ValueError]; [ok] tells whether the reply of the handler returns;
    [t_ban] is the clock reading of [db.ban].  Only [ValueError] is caught:
    the [OverflowError] of [db.ban] on an id sqlite3 cannot bind leaves the
    handler, before any reply. *)
Definition ban_cmd (OWNER_ID : Z) (int : text → option Z) (ok : bool)
    (update : Update) (args : list text) (t_upsert t_seen t_hit t_ban : Z)
    (w : World) : completion * World * list admin_call :=
  let '(pass, w) := guard OWNER_ID update t_upsert t_seen t_hit w in
  if negb pass then (Returned, w, [])
  else if negb (is_admin OWNER_ID update) then answer ok AdminOnlyNotice w
  else
    match args with
    | [] => answer ok BanUsage w
    | a :: rest =>
        match int a with
        | None => answer ok NotANumber w
        | Some uid =>
            let reason :=
              match Py.strip (Py.join rest) with
              | [] => lit "No reason"
              | r => r
              end in
            match with_id uid (DB.ban uid reason t_ban (db w)) with
            | None => (Raised, w, [])
            | Some d =>
                let w := MkWorld d (FLOOD w) (out w) in
                if ok then
                  (Returned, w,
                   [AReply (BannedDone uid (esc_md (Some reason)));
                    ANotify uid (9940%N :: lit " You are banned." ++ 10%N
                                   :: lit "Reason: " ++ reason)])
                else
                  (Raised, w,
                   [AReply (BannedDone uid (esc_md (Some reason)))])
            end
        end
    end.

(** [unban_cmd], with [int] and [ok] as in [ban_cmd], and the
    [OverflowError] of [db.unban] as that of [db.ban]. *)
Definition unban_cmd (OWNER_ID : Z) (int : text → option Z) (ok : bool)
    (update : Update) (args : list text) (t_upsert t_seen t_hit : Z)
    (w : World) : completion * World * list admin_call :=
  let '(pass, w) := guard OWNER_ID update t_upsert t_seen t_hit w in
  if negb pass then (Returned, w, [])
  else if negb (is_admin OWNER_ID update) then answer ok AdminOnlyNotice w
  else
    match args with
    | [] => answer ok UnbanUsage w
    | a :: _ =>
        match int a with
        | None => answer ok NotANumber w
        | Some uid =>
            match with_id uid (DB.unban uid (db w)) with
            | None => (Raised, w, [])
            | Some d =>
                let w := MkWorld d (FLOOD w) (out w) in
                if ok then
                  (Returned, w,
                   [AReply (UnbannedDone uid);
                    ANotify uid (9989%N :: lit " You are unbanned now.")])
                else (Raised, w, [AReply (UnbannedDone uid)])
            end
        end
    end.

(** [stats_cmd]; [seconds] is the uptime [uptime_str] reads. *)
Definition stats_cmd (OWNER_ID : Z) (ok : bool) (update : Update)
    (t_upsert t_seen t_hit seconds : Z) (w : World)
    : completion * World * list admin_call :=
  let '(pass, w) := guard OWNER_ID update t_upsert t_seen t_hit w in
  if negb pass then (Returned, w, [])
  else if negb (is_admin OWNER_ID update) then answer ok AdminOnlyNotice w
  else
    let s := DB.stats (db w) in
    answer ok (StatsReport s.1 s.2 (uptime_str seconds)) w.

(** ** The hashtag generator *)

(** Two functions of Python are taken as arguments by what follows:
    [lower] is [str.lower], and [shuffle] gives the order in which one
    call of [random.shuffle] leaves a list. *)

(** [s.strip(chars)], for the characters [p] holds of. *)
Fixpoint lstrip_of (p : N → bool) (s : text) : text :=
  match s with
  | c :: s' => if p c then lstrip_of p s' else s
  | [] => []
  end.

Definition strip_of (p : N → bool) (s : text) : text :=
  reverse (lstrip_of p (reverse (lstrip_of p s))).

(** [needle in hay] for strings. *)
Fixpoint is_prefix (needle hay : text) : bool :=
  match needle, hay with
  | [], _ => true
  | _ :: _, [] => false
  | a :: needle', b :: hay' => (a =? b)%N && is_prefix needle' hay'
  end.

Fixpoint contains (needle hay : text) : bool :=
  is_prefix needle hay
  || match hay with
     | [] => false
     | _ :: hay' => contains needle hay'
     end.

(** The class [[a-zA-Z0-9_]]. *)
Definition is_word (c : N) : bool :=
  ((97 <=? c) && (c <=? 122) || (65 <=? c) && (c <=? 90)
   || (48 <=? c) && (c <=? 57) || (c =? 95))%N.

Definition normalize_hashtag (tag : text) : text :=
  let tag := filter (λ c, is_word c = true) tag in
  let tag := strip_of (λ c, (c =? 95)%N) tag in
  match tag with
  | [] => []
  | _ :: _ => 35%N :: tag
  end.

(** The class [[\s,.;:!?\-_/]]. *)
Definition is_sep (c : N) : bool :=
  Py.isspace c
  || bool_decide (c ∈ [44; 46; 59; 58; 33; 63; 45; 95; 47]%N).

(** [re.split] on runs of separators, reading [s] with the piece under
    way in [cur], most recent character first; [in_sep] tells that the
    last character read was a separator. *)
Fixpoint split_runs (cur : text) (in_sep : bool) (s : text) : list text :=
  match s with
  | [] => [reverse cur]
  | c :: s' =>
      if is_sep c then
        if in_sep then split_runs [] true s'
        else reverse cur :: split_runs [] true s'
      else split_runs (c :: cur) false s'
  end.

Definition re_split (s : text) : list text := split_runs [] false s.

(** The loop of [topic_keywords] that keeps the first occurrence of each
    lowered part. *)
Fixpoint unique_lower (lower : text → text) (parts : list text)
    (seen : gset text) (out : list text) : list text :=
  match parts with
  | [] => out
  | p :: parts' =>
      let lp := lower p in
      if decide (lp ∈ seen) then unique_lower lower parts' seen out
      else unique_lower lower parts' ({[lp]} ∪ seen) (out ++ [lp])
  end.

Definition topic_keywords (lower : text → text) (topic : option text)
    : list text :=
  let t := Py.strip (Py.or_empty topic) in
  let parts := re_split t in
  let parts := filter (λ p, p ≠ [] ∧ (3 ≤ length p)%nat) parts in
  take 10 (unique_lower lower parts ∅ []).

Definition NICHES : list (text * list text) :=
  [(lit "bike", lit <$> ["splendor"; "bike"; "bikelife"; "rider"; "ride";
                          "motorcycle"; "biker"]%string);
   (lit "love", lit <$> ["love"; "couple"; "romance"; "relationship"; "pyar";
                          "meriJaan"]%string);
   (lit "sad", lit <$> ["sad"; "broken"; "heartbreak"; "alone"; "sadquotes";
                         "mood"]%string);
   (lit "fitness", lit <$> ["fitness"; "gym"; "workout"; "health";
                             "motivation"; "fitlife"]%string);
   (lit "business", lit <$> ["business"; "startup"; "hustle"; "entrepreneur";
                              "marketing"; "growth"]%string);
   (lit "music", lit <$> ["music"; "song"; "lyrics"; "beats"; "artist";
                           "audio"]%string);
   (lit "travel", lit <$> ["travel"; "wanderlust"; "trip"; "vacation";
                            "explore"; "journey"]%string);
   (lit "editing", lit <$> ["capcut"; "videoediting"; "editing"; "template";
                             "reelsedit"; "creator"]%string)].

Definition LANG_TAGS : list (text * list text) :=
  [(lit "english", lit <$> ["reels"; "explorepage"; "trending"; "viralreels";
                             "instagood"; "contentcreator"]%string);
   (lit "hindi", lit <$> ["reelsindia"; "hindireels"; "india"; "desivibes";
                           "hindiquotes"; "desireels"]%string);
   (lit "hinglish", lit <$> ["reelsindia"; "trendingreels"; "viral";
                              "explore"; "instareels"; "desivibes"]%string)].

(** [table.get(key)] on a dict written as the list of its items. *)
Fixpoint dict_get (key : text) (table : list (text * list text))
    : option (list text) :=
  match table with
  | [] => None
  | (k, v) :: table' => if decide (k = key) then Some v else dict_get key table'
  end.

(** The two nested [for] loops of [guess_niche]. *)
Fixpoint first_niche (lower : text → text) (t : text)
    (items : list (text * list text)) : option text :=
  match items with
  | [] => None
  | (k, words) :: items' =>
      if existsb (λ w, contains (lower w) t) words then Some k
      else first_niche lower t items'
  end.

Definition guess_niche (lower : text → text) (topic : option text) : text :=
  let t := lower (Py.or_empty topic) in
  match first_niche lower t NICHES with
  | Some k => k
  | None =>
      let any xs := existsb (λ x, contains (lit x) t) xs in
      if any ["gym"; "workout"; "fitness"]%string then lit "fitness"
      else if any ["love"; "jaan"; "gf"; "bf"]%string then lit "love"
      else if any ["sad"; "alone"; "breakup"]%string then lit "sad"
      else if any ["edit"; "capcut"; "template"]%string then lit "editing"
      else lit "music"
  end.

(** The first loop of [make_hashtags], over the shuffled [base]. *)
Fixpoint collect_tags (n : Z) (base : list text) (seen : gset text)
    (tags : list text) : gset text * list text :=
  match base with
  | [] => (seen, tags)
  | b :: base' =>
      let ht := normalize_hashtag b in
      match ht with
      | [] => collect_tags n base' seen tags
      | _ :: _ =>
          if decide (ht ∈ seen) then collect_tags n base' seen tags
          else
            let seen := {[ht]} ∪ seen in
            let tags := tags ++ [ht] in
            if bool_decide (n ≤ Z.of_nat (length tags)) then (seen, tags)
            else collect_tags n base' seen tags
      end
  end.

(** The second loop, over the fillers. *)
Fixpoint fill_tags (n : Z) (fillers : list text) (seen : gset text)
    (tags : list text) : list text :=
  match fillers with
  | [] => tags
  | f :: fillers' =>
      if bool_decide (n ≤ Z.of_nat (length tags)) then tags
      else
        let ht := normalize_hashtag f in
        if decide (ht ∈ seen) then fill_tags n fillers' seen tags
        else fill_tags n fillers' ({[ht]} ∪ seen) (tags ++ [ht])
  end.

(** [l[:n]] *)
Definition slice_to {A} (n : Z) (l : list A) : list A :=
  if n <? 0 then take (Z.to_nat (Z.of_nat (length l) + n)) l
  else take (Z.to_nat n) l.

Definition FILLERS : list text :=
  lit <$> ["creator"; "content"; "trend"; "reelitfeelit"; "instadaily";
           "viralvideo"; "newpost"; "foryou"]%string.

Definition make_hashtags (lower : text → text)
    (shuffle : list text → list text) (topic : option text) (n : Z)
    (lang : option text) : list text :=
  let lang := Py.strip (lower (if Py.truthy lang then Py.or_empty lang
                               else lit "hinglish")) in
  let lang := if dict_get lang LANG_TAGS is Some _ then lang
              else lit "hinglish" in
  let niche := guess_niche lower topic in
  let base :=
    flat_map (λ kw, [kw; kw ++ lit "reels"; lit "the" ++ kw])
      (topic_keywords lower topic) in
  let base := base ++ default [] (dict_get niche NICHES) in
  let base := base ++ default [] (dict_get lang LANG_TAGS) in
  let base := base ++ (lit <$> ["reels"; "reelsvideo"; "viral"; "explore";
                                "explorepage"; "instareels";
                                "instagramreels"]%string) in
  let base := lower <$> filter (λ b, b ≠ []) base in
  let base := shuffle base in
  let '(seen, tags) := collect_tags n base ∅ [] in
  let tags := fill_tags n FILLERS seen tags in
  slice_to n tags.

(** ** The hashtags command *)

(** What [hashtags_cmd] says to the caller; the last carries the language,
    the count and the escaped line of hashtags. *)
Inductive seo_notice :=
| HashtagsUsage
| TopicMissing
| HashtagsReply (lang : text) (n : Z) (tags : text).

(** [re.fullmatch(r"\d{1,2}", s)] followed by [int(s)]: the value of a
    string of one or two decimal digits, where [digit] gives the value of
    a character that Unicode classes as a decimal digit. *)
Definition two_digits (digit : N → option Z) (s : text) : option Z :=
  match s with
  | [a] => digit a
  | [a; b] =>
      match digit a, digit b with
      | Some x, Some y => Some (10 * x + y)
      | _, _ => None
      end
  | _ => None
  end.

(** [l[:-1]] *)
Definition but_last {A} (l : list A) : list A := take (length l - 1) l.

(** [hashtags_cmd].  [lower], [shuffle] and [digit] are as above; [ok]
    tells whether the reply of the handler returns. *)
Definition hashtags_cmd (OWNER_ID : Z) (lower : text → text)
    (shuffle : list text → list text) (digit : N → option Z) (ok : bool)
    (update : Update) (args : list text) (t_upsert t_seen t_hit : Z)
    (w : World) : completion * World * list seo_notice :=
  let '(pass, w) := guard OWNER_ID update t_upsert t_seen t_hit w in
  if negb pass then (Returned, w, [])
  else
    let reply n := (if ok then Returned else Raised, w, [n]) in
    match args with
    | [] => reply HashtagsUsage
    | _ :: _ =>
        let lang := lit "hinglish" in
        let n := 25 in
        let '(lang, args) :=
          match last args with
          | Some a =>
              if bool_decide (lower a ∈ [lit "hinglish"; lit "english";
                                         lit "hindi"])
              then (lower a, but_last args)
              else (lang, args)
          | None => (lang, args)
          end in
        let '(n, args) :=
          match last args with
          | Some a =>
              match two_digits digit a with
              | Some v => (Z.max 10 (Z.min 30 v), but_last args)
              | None => (n, args)
              end
          | None => (n, args)
          end in
        let topic := Py.strip (Py.join args) in
        match topic with
        | [] => reply TopicMissing
        | _ :: _ =>
            let tags := make_hashtags lower shuffle (Some topic) n (Some lang) in
            reply (HashtagsReply lang n (esc_md (Some (Py.join tags))))
        end
    end.

(** * Vocabulary of the statements *)

(** The moderation invariant of a row: a reason is stored only in a row
    that is banned. *)
Definition row_ok (r : users.row) : Prop :=
  users.ban_reason r ≠ None → users.is_banned r = 1.

Definition store_ok (d : Store) : Prop :=
  ∀ k r, users_tbl d !! k = Some r → row_ok r.

(** The states the methods of [DB] lead to from a fresh file. *)
Inductive reachable : Store → Prop :=
| reach_init : reachable DB.init
| reach_upsert_user uid fn un ts d :
    reachable d → reachable (DB.upsert_user uid fn un ts d)
| reach_set_last_seen uid ts d :
    reachable d → reachable (DB.set_last_seen uid ts d)
| reach_ban uid reason ts d :
    reachable d → reachable (DB.ban uid reason ts d)
| reach_unban uid d :
    reachable d → reachable (DB.unban uid d)
| reach_log_broadcast admin msg ts d :
    reachable d → reachable (DB.log_broadcast admin msg ts d).2
| reach_update_broadcast_result bid ok fail d :
    reachable d → reachable (DB.update_broadcast_result bid ok fail d).

(** A run of calls of [hit] for one id, at the readings [times] in turn:
    the answers, in order, and the limiter left behind. *)
Fixpoint hits (uid : Z) (times : list Z) (self : Flood) : list bool * Flood :=
  match times with
  | [] => ([], self)
  | now :: rest =>
      let '(b, self) := hit uid now self in
      let '(bs, self) := hits uid rest self in
      (b :: bs, self)
  end.

(** Every call of the run is made at most [w] seconds after each call
    before it. *)
Fixpoint within (w : Z) (times : list Z) : Prop :=
  match times with
  | [] => True
  | t :: rest => Forall (λ t', t' - t ≤ w) rest ∧ within w rest
  end.

(** The answers of [k] calls that each find [n], [n+1], ... entries stored
    and drop none. *)
Fixpoint answers (limit : Z) (n k : nat) : list bool :=
  match k with
  | O => []
  | S k' => bool_decide (limit < Z.of_nat (S n)) :: answers limit (S n) k'
  end.

(** The [send_message] calls of a trace: recipient and text, in order. *)
Definition sends (tr : list effect) : list (Z * text) :=
  omap (λ e, match e with Send uid msg => Some (uid, msg) | _ => None end) tr.

(** What the transport does with the sends of a run that starts at
    iteration [i]: [true] for a send that returns, [false] for one that
    raises. *)
Fixpoint outcomes (env : Env) (i : nat) (user_ids : list Z) : list bool :=
  match user_ids with
  | [] => []
  | uid :: rest => send_ok env i uid :: outcomes env (S i) rest
  end.

(** The number of sends that raise. *)
Definition failures (env : Env) (user_ids : list Z) : Z :=
  Z.of_nat (length (filter (λ b, b = false) (outcomes env 1 user_ids))).

(** One call of a method of [DB] that writes, with its arguments and the
    clock reading it takes. *)
Inductive db_call :=
| UpsertUser (user_id : Z) (first_name username : option text) (ts : Z)
| SetLastSeen (user_id ts : Z)
| Ban (user_id : Z) (reason : text) (ts : Z)
| Unban (user_id : Z)
| LogBroadcast (admin_id : Z) (message : text) (ts : Z)
| UpdateBroadcastResult (bid ok fail : Z).

Definition db_apply (c : db_call) (d : Store) : Store :=
  match c with
  | UpsertUser uid fn un ts => DB.upsert_user uid fn un ts d
  | SetLastSeen uid ts => DB.set_last_seen uid ts d
  | Ban uid reason ts => DB.ban uid reason ts d
  | Unban uid => DB.unban uid d
  | LogBroadcast admin msg ts => (DB.log_broadcast admin msg ts d).2
  | UpdateBroadcastResult bid ok fail =>
      DB.update_broadcast_result bid ok fail d
  end.

(** The calls of a history, oldest first. *)
Definition db_run (cs : list db_call) (d : Store) : Store :=
  foldl (λ d c, db_apply c d) d cs.

Definition call_time (c : db_call) : option Z :=
  match c with
  | UpsertUser _ _ _ ts | SetLastSeen _ ts | Ban _ _ ts
  | LogBroadcast _ _ ts => Some ts
  | Unban _ | UpdateBroadcastResult _ _ _ => None
  end.

(** The clock never steps back along the history: every reading is at
    least the one before it, and the first is at least [t]. *)
Fixpoint clock_ordered (t : Z) (cs : list db_call) : Prop :=
  match cs with
  | [] => True
  | c :: cs' =>
      match call_time c with
      | Some ts => t ≤ ts ∧ clock_ordered ts cs'
      | None => clock_ordered t cs'
      end
  end.

(** Every row has [joined_at <= last_seen <= t]. *)
Definition rows_dated (t : Z) (d : Store) : Prop :=
  ∀ k r, users_tbl d !! k = Some r →
    users.joined_at r ≤ users.last_seen r ∧ users.last_seen r ≤ t.

(** [is_banned] holds 0 or 1 in every row. *)
Definition flags_ok (d : Store) : Prop :=
  ∀ k r, users_tbl d !! k = Some r →
    users.is_banned r = 0 ∨ users.is_banned r = 1.

(** A run of [guard] on one update, one call per triple of clock
    readings: the answers, in order, and the state left behind. *)
Fixpoint guards (OWNER_ID : Z) (update : Update) (times : list (Z * Z * Z))
    (w : World) : list bool * World :=
  match times with
  | [] => ([], w)
  | (t_upsert, t_seen, t_hit) :: rest =>
      let '(b, w) := guard OWNER_ID update t_upsert t_seen t_hit w in
      let '(bs, w) := guards OWNER_ID update rest w in
      (b :: bs, w)
  end.

(** One field of the uptime: nothing when it is zero, else the number
    followed by its unit. *)
Definition uptime_part (v : Z) (unit : string) : list text :=
  if v =? 0 then [] else [str_of_Z v ++ lit unit].

(** The handlers, as far as the state goes.  [CmdOther] stands for every
    handler that passes the gate and then only replies: [start_cmd],
    [help_cmd], [info_cmd], [ping_cmd], [uptime_cmd], [caption_cmd],
    [hashtags_cmd], [seo_cmd], [text_msg] and [cb]. *)
Inductive command :=
| CmdBan (ok : bool) (args : list text) (t_ban : Z)
| CmdUnban (ok : bool) (args : list text)
| CmdStats (ok : bool) (seconds : Z)
| CmdBroadcast (env : Env) (args : list text) (t_log : Z)
| CmdOther.

(** An incoming update, the handler it is routed to and the three clock
    readings of its gate. *)
Record request := MkRequest {
  req_update : Update;
  req_command : command;
  req_times : Z * Z * Z
}.

(** The state one request leaves. *)
Definition handle (OWNER_ID : Z) (int : text → option Z) (r : request)
    (w : World) : World :=
  let '(t1, t2, t3) := req_times r in
  match req_command r with
  | CmdBan ok args t_ban =>
      (ban_cmd OWNER_ID int ok (req_update r) args t1 t2 t3 t_ban w).1.2
  | CmdUnban ok args =>
      (unban_cmd OWNER_ID int ok (req_update r) args t1 t2 t3 w).1.2
  | CmdStats ok seconds =>
      (stats_cmd OWNER_ID ok (req_update r) t1 t2 t3 seconds w).1.2
  | CmdBroadcast env args t_log =>
      (broadcast_cmd OWNER_ID env (req_update r) args t1 t2 t3 t_log w).2
  | CmdOther => (guard OWNER_ID (req_update r) t1 t2 t3 w).2
  end.

(** The requests of a session, served one after the other. *)
Definition serve (OWNER_ID : Z) (int : text → option Z) (rs : list request)
    (w : World) : World :=
  foldl (λ w r, handle OWNER_ID int r w) w rs.

(** A well-formed hashtag: [#] followed by one or more characters of
    [[a-zA-Z0-9_]], the first and the last of which are not [_]. *)
Definition tag_shaped (t : text) : Prop :=
  ∃ body, t = 35%N :: body
    ∧ body ≠ []
    ∧ Forall (λ c, is_word c = true) body
    ∧ head body ≠ Some 95%N
    ∧ last body ≠ Some 95%N.

(** What the two loops of [make_hashtags] keep true of [seen] and
    [tags]. *)
Definition tags_ok (seen : gset text) (tags : list text) : Prop :=
  (∀ x, x ∈ seen ↔ x ∈ tags) ∧ NoDup tags ∧ Forall tag_shaped tags.

(** [p] is a piece of [t]: a run of characters of [t], not empty, none of
    them a separator, with a separator or an end of [t] on either side. *)
Definition piece_of (t p : text) : Prop :=
  ∃ pre post, t = pre ++ p ++ post
    ∧ p ≠ []
    ∧ Forall (λ c, is_sep c = false) p
    ∧ (∀ c, last pre = Some c → is_sep c = true)
    ∧ (∀ c, head post = Some c → is_sep c = true).

(** * Properties *)

(** ** The recipient store *)

Section store_facts.
Implicit Types (d : Store) (r : users.row) (uid k ts : Z).

Lemma upsert_user_lookup uid fn un ts d :
  users_tbl (DB.upsert_user uid fn un ts d) !! uid =
  Some match users_tbl d !! uid with
       | None => users.Row (Py.or_empty fn) (Py.or_empty un) ts ts 0 None
       | Some r => users.Row (Py.or_empty fn) (Py.or_empty un)
                     (users.joined_at r) ts
                     (users.is_banned r) (users.ban_reason r)
       end.
Proof. unfold DB.upsert_user; cbn. by rewrite lookup_insert_eq. Qed.

Lemma upsert_user_lookup_ne uid k fn un ts d :
  k ≠ uid →
  users_tbl (DB.upsert_user uid fn un ts d) !! k = users_tbl d !! k.
Proof. intros ?. unfold DB.upsert_user; cbn. by rewrite lookup_insert_ne. Qed.

Lemma set_last_seen_lookup uid ts d :
  users_tbl (DB.set_last_seen uid ts d) !! uid =
  (λ r, users.Row (users.first_name r) (users.username r)
          (users.joined_at r) ts (users.is_banned r) (users.ban_reason r))
    <$> users_tbl d !! uid.
Proof.
  unfold DB.set_last_seen.
  destruct (users_tbl d !! uid) as [r|] eqn:E; cbn.
  - by rewrite lookup_insert_eq.
  - by rewrite E.
Qed.

Lemma set_last_seen_lookup_ne uid k ts d :
  k ≠ uid →
  users_tbl (DB.set_last_seen uid ts d) !! k = users_tbl d !! k.
Proof.
  intros ?. unfold DB.set_last_seen.
  destruct (users_tbl d !! uid); cbn; [by rewrite lookup_insert_ne | done].
Qed.

Lemma ban_lookup uid reason ts d :
  users_tbl (DB.ban uid reason ts d) !! uid =
  Some match users_tbl d !! uid with
       | None => users.Row [] [] ts ts 1 (Some reason)
       | Some r => users.Row (users.first_name r) (users.username r)
                     (users.joined_at r) (users.last_seen r) 1 (Some reason)
       end.
Proof. unfold DB.ban; cbn. by rewrite lookup_insert_eq. Qed.

Lemma ban_lookup_ne uid k reason ts d :
  k ≠ uid → users_tbl (DB.ban uid reason ts d) !! k = users_tbl d !! k.
Proof. intros ?. unfold DB.ban; cbn. by rewrite lookup_insert_ne. Qed.

Lemma unban_lookup uid d :
  users_tbl (DB.unban uid d) !! uid =
  (λ r, users.Row (users.first_name r) (users.username r)
          (users.joined_at r) (users.last_seen r) 0 None)
    <$> users_tbl d !! uid.
Proof.
  unfold DB.unban.
  destruct (users_tbl d !! uid) as [r|] eqn:E; cbn.
  - by rewrite lookup_insert_eq.
  - by rewrite E.
Qed.

Lemma unban_lookup_ne uid k d :
  k ≠ uid → users_tbl (DB.unban uid d) !! k = users_tbl d !! k.
Proof.
  intros ?. unfold DB.unban.
  destruct (users_tbl d !! uid); cbn; [by rewrite lookup_insert_ne | done].
Qed.

Lemma unban_dom uid d : dom (users_tbl (DB.unban uid d)) = dom (users_tbl d).
Proof.
  apply set_eq; intros k. rewrite !elem_of_dom.
  destruct (decide (k = uid)) as [->|Hne].
  - rewrite unban_lookup. by rewrite fmap_is_Some.
  - by rewrite unban_lookup_ne.
Qed.

Lemma user_ids_active_perm d :
  DB.user_ids_active d
  ≡ₚ (map_to_list
        (filter (λ kr, users.is_banned kr.2 = 0) (users_tbl d))).*1.
Proof. apply merge_sort_Permutation. Qed.

Lemma user_ids_active_NoDup d : NoDup (DB.user_ids_active d).
Proof. rewrite user_ids_active_perm. apply NoDup_fst_map_to_list. Qed.

End store_facts.

(** C5.  For an id sqlite3 binds (any other makes [ban] and [unban] raise
    and write nothing), both calls return.  [ban] on an id without a row creates the row with
    empty name fields, [is_banned = 1] and the given reason; on an id with
    a row it
    sets [is_banned = 1] and replaces the reason, whatever it was, leaving
    the other columns.  The [unban] that follows resets [is_banned] to 0
    and [ban_reason] to NULL; the row stays, with its names, its
    [joined_at] and its [last_seen], and no other row changes. *)
Theorem ban_then_unban (uid : Z) (reason : text) (ts : Z) (d : Store) :
  sqlite_int uid = true →
  let d1 := DB.ban uid reason ts d in
  let d2 := DB.unban uid d1 in
  (with_id uid d1 = Some d1 ∧ with_id uid d2 = Some d2)
  ∧ (users_tbl d !! uid = None →
     users_tbl d1 !! uid = Some (users.Row [] [] ts ts 1 (Some reason)))
  ∧ (∀ r, users_tbl d !! uid = Some r →
       users_tbl d1 !! uid =
       Some (users.Row (users.first_name r) (users.username r)
               (users.joined_at r) (users.last_seen r) 1 (Some reason)))
  ∧ DB.is_banned uid d1 = (true, Some reason)
  ∧ (∃ r1, users_tbl d1 !! uid = Some r1
       ∧ users_tbl d2 !! uid =
         Some (users.Row (users.first_name r1) (users.username r1)
                 (users.joined_at r1) (users.last_seen r1) 0 None))
  ∧ DB.is_banned uid d2 = (false, None)
  ∧ dom (users_tbl d2) = dom (users_tbl d1)
  ∧ (∀ k, k ≠ uid → users_tbl d2 !! k = users_tbl d !! k).
Proof.
  intros Hid d1 d2. subst d1 d2. unfold with_id. rewrite Hid.
  repeat split.
  - intros E. rewrite ban_lookup, E. reflexivity.
  - intros r E. rewrite ban_lookup, E. reflexivity.
  - unfold DB.is_banned. rewrite ban_lookup.
    by destruct (users_tbl d !! uid).
  - eexists. split; [apply ban_lookup|].
    rewrite unban_lookup, ban_lookup. by destruct (users_tbl d !! uid).
  - unfold DB.is_banned. rewrite unban_lookup, ban_lookup. reflexivity.
  - apply unban_dom.
  - intros k Hk. rewrite unban_lookup_ne, ban_lookup_ne; done.
Qed.

Lemma ban_then_unban_witness :
  users_tbl (DB.ban 42 [115; 112; 97; 109]%N 1000 DB.init) !! 42
  = Some (users.Row [] [] 1000 1000 1 (Some [115; 112; 97; 109]%N)).
Proof.
  apply (proj1 (proj2 (ban_then_unban 42 [115; 112; 97; 109]%N 1000 DB.init
                         eq_refl))).
  reflexivity.
Defined.

(** C6.  [upsert_user] on an id that has a row overwrites [first_name],
    [username] and [last_seen] and keeps [joined_at], [is_banned] and
    [ban_reason]; no other row and no broadcast record changes.  Calling it
    again with the same names gives the state one call at the later reading
    gives, so the two states differ in [last_seen] alone, which does not
    go back when the clock does not; at an equal reading the second call
    changes nothing. *)
Theorem upsert_user_existing (uid : Z) (fn un : option text) (ts : Z)
    (d : Store) (r : users.row) :
  users_tbl d !! uid = Some r →
  let d1 := DB.upsert_user uid fn un ts d in
  users_tbl d1 !! uid =
    Some (users.Row (Py.or_empty fn) (Py.or_empty un) (users.joined_at r) ts
            (users.is_banned r) (users.ban_reason r))
  ∧ (∀ k, k ≠ uid → users_tbl d1 !! k = users_tbl d !! k)
  ∧ broadcasts_tbl d1 = broadcasts_tbl d
  ∧ (∀ ts', DB.upsert_user uid fn un ts' d1 = DB.upsert_user uid fn un ts' d)
  ∧ (∀ ts', users_tbl (DB.upsert_user uid fn un ts' d1) !! uid =
       Some (users.Row (Py.or_empty fn) (Py.or_empty un) (users.joined_at r)
               ts' (users.is_banned r) (users.ban_reason r)))
  ∧ (∀ ts' r1 r2, ts ≤ ts' →
       users_tbl d1 !! uid = Some r1 →
       users_tbl (DB.upsert_user uid fn un ts' d1) !! uid = Some r2 →
       users.last_seen r1 ≤ users.last_seen r2)
  ∧ DB.upsert_user uid fn un ts d1 = d1.
Proof.
  intros E d1.
  assert (E1 : users_tbl d1 !! uid =
    Some (users.Row (Py.or_empty fn) (Py.or_empty un) (users.joined_at r) ts
            (users.is_banned r) (users.ban_reason r))).
  { subst d1. rewrite upsert_user_lookup, E. reflexivity. }
  assert (Again : ∀ ts',
    DB.upsert_user uid fn un ts' d1 = DB.upsert_user uid fn un ts' d).
  { intros ts'. unfold DB.upsert_user at 1. rewrite E1.
    subst d1. unfold DB.upsert_user. rewrite E. cbn.
    f_equal. apply insert_insert_eq. }
  assert (E2 : ∀ ts', users_tbl (DB.upsert_user uid fn un ts' d1) !! uid =
    Some (users.Row (Py.or_empty fn) (Py.or_empty un) (users.joined_at r)
            ts' (users.is_banned r) (users.ban_reason r))).
  { intros ts'. rewrite Again, upsert_user_lookup, E. reflexivity. }
  split_and!.
  - exact E1.
  - intros k Hk. subst d1. by apply upsert_user_lookup_ne.
  - reflexivity.
  - exact Again.
  - exact E2.
  - intros ts' r1 r2 Hle H1 H2. rewrite E1 in H1. rewrite E2 in H2.
    injection H1 as <-. injection H2 as <-. exact Hle.
  - rewrite Again. reflexivity.
Qed.

Lemma upsert_user_existing_witness :
  users_tbl
    (DB.upsert_user 7 (Some [66]%N) None 20
       (DB.ban 7 [120]%N 15 (DB.upsert_user 7 (Some [65]%N) None 10 DB.init)))
    !! 7
  = Some (users.Row [66]%N [] 10 20 1 (Some [120]%N)).
Proof.
  refine (proj1 (upsert_user_existing 7 (Some [66]%N) None 20
    (DB.ban 7 [120]%N 15 (DB.upsert_user 7 (Some [65]%N) None 10 DB.init))
    (users.Row [65]%N [] 10 10 1 (Some [120]%N)) _)).
  reflexivity.
Defined.

Section invariant.
Implicit Types (d : Store) (uid ts : Z).

Lemma store_ok_init : store_ok DB.init.
Proof. intros k r. cbn. by rewrite lookup_empty. Qed.

Lemma store_ok_upsert_user uid fn un ts d :
  store_ok d → store_ok (DB.upsert_user uid fn un ts d).
Proof.
  intros Hd k r. destruct (decide (k = uid)) as [->|Hne].
  - rewrite upsert_user_lookup. intros [= <-].
    destruct (users_tbl d !! uid) as [r0|] eqn:E.
    + apply (Hd _ _ E).
    + unfold row_ok; cbn. congruence.
  - rewrite upsert_user_lookup_ne by done. apply Hd.
Qed.

Lemma store_ok_set_last_seen uid ts d :
  store_ok d → store_ok (DB.set_last_seen uid ts d).
Proof.
  intros Hd k r. destruct (decide (k = uid)) as [->|Hne].
  - rewrite set_last_seen_lookup.
    destruct (users_tbl d !! uid) as [r0|] eqn:E; [|done].
    intros [= <-]. apply (Hd _ _ E).
  - rewrite set_last_seen_lookup_ne by done. apply Hd.
Qed.

Lemma store_ok_ban uid reason ts d :
  store_ok d → store_ok (DB.ban uid reason ts d).
Proof.
  intros Hd k r. destruct (decide (k = uid)) as [->|Hne].
  - rewrite ban_lookup. intros [= <-].
    by destruct (users_tbl d !! uid); unfold row_ok; cbn.
  - rewrite ban_lookup_ne by done. apply Hd.
Qed.

Lemma store_ok_unban uid d : store_ok d → store_ok (DB.unban uid d).
Proof.
  intros Hd k r. destruct (decide (k = uid)) as [->|Hne].
  - rewrite unban_lookup.
    destruct (users_tbl d !! uid) as [r0|]; [|done].
    intros [= <-]. unfold row_ok; cbn. congruence.
  - rewrite unban_lookup_ne by done. apply Hd.
Qed.

Lemma store_ok_users d d' : users_tbl d' = users_tbl d → store_ok d → store_ok d'.
Proof. intros E Hd k r. rewrite E. apply Hd. Qed.

Lemma update_broadcast_result_users bid ok fail d :
  users_tbl (DB.update_broadcast_result bid ok fail d) = users_tbl d.
Proof.
  unfold DB.update_broadcast_result. by destruct (broadcasts_tbl d !! bid).
Qed.

Lemma reachable_store_ok d : reachable d → store_ok d.
Proof.
  induction 1;
    eauto using store_ok_init, store_ok_upsert_user, store_ok_set_last_seen,
      store_ok_ban, store_ok_unban.
  eapply store_ok_users; [apply update_broadcast_result_users | done].
Qed.

End invariant.

(** C7.  A stored [ban_reason] is non-NULL only in a row with
    [is_banned = 1]: this holds of every row in every state the store can
    reach from a fresh file, and [upsert_user], [set_last_seen], [ban] and
    [unban] each keep it.  [unban] resets both columns in its one update:
    the row it leaves has [is_banned = 0] and [ban_reason] NULL. *)
Theorem ban_reason_only_if_banned :
  (∀ d, reachable d → store_ok d)
  ∧ (∀ d, store_ok d →
       (∀ uid fn un ts, store_ok (DB.upsert_user uid fn un ts d))
       ∧ (∀ uid ts, store_ok (DB.set_last_seen uid ts d))
       ∧ (∀ uid reason ts, store_ok (DB.ban uid reason ts d))
       ∧ (∀ uid, store_ok (DB.unban uid d)))
  ∧ (∀ d uid r, users_tbl (DB.unban uid d) !! uid = Some r →
       users.is_banned r = 0 ∧ users.ban_reason r = None).
Proof.
  split_and!.
  - apply reachable_store_ok.
  - intros d Hd. split_and!; intros.
    + by apply store_ok_upsert_user.
    + by apply store_ok_set_last_seen.
    + by apply store_ok_ban.
    + by apply store_ok_unban.
  - intros d uid r. rewrite unban_lookup.
    destruct (users_tbl d !! uid); [|done]. by intros [= <-].
Qed.

Lemma ban_reason_only_if_banned_witness :
  store_ok (DB.unban 3 (DB.ban 3 [120]%N 5 DB.init)).
Proof.
  apply (proj1 ban_reason_only_if_banned).
  apply reach_unban, reach_ban, reach_init.
Defined.

(** C8.  On an id without a row, the three calls return: [is_banned]
    answers [(False, None)], and [set_last_seen] and [unban] leave the
    store as it was.  An unknown id is no error case of the three.  The id
    is one sqlite3 binds; with any other the call raises [OverflowError],
    known id or not. *)
Theorem unknown_id_is_sentinel (uid : Z) (d : Store) :
  sqlite_int uid = true →
  users_tbl d !! uid = None →
  with_id uid (DB.is_banned uid d) = Some (false, None)
  ∧ (∀ ts, with_id uid (DB.set_last_seen uid ts d) = Some d)
  ∧ with_id uid (DB.unban uid d) = Some d.
Proof.
  intros Hid E. unfold with_id, DB.is_banned, DB.set_last_seen, DB.unban.
  rewrite Hid, E. done.
Qed.

Lemma unknown_id_is_sentinel_witness :
  with_id 5 (DB.is_banned 5 (DB.upsert_user 4 None None 1 DB.init))
  = Some (false, None)
  ∧ (∀ ts, with_id 5 (DB.set_last_seen 5 ts
                        (DB.upsert_user 4 None None 1 DB.init))
           = Some (DB.upsert_user 4 None None 1 DB.init))
  ∧ with_id 5 (DB.unban 5 (DB.upsert_user 4 None None 1 DB.init))
    = Some (DB.upsert_user 4 None None 1 DB.init).
Proof.
  apply (unknown_id_is_sentinel 5 (DB.upsert_user 4 None None 1 DB.init)).
  - reflexivity.
  - reflexivity.
Defined.

(** ** The flood guard *)

(** C10.  After [hit uid now] the list stored for [uid] is the list stored
    before, cut down to the timestamps [t] with [now - t <= window] (in
    their order), followed by [now].  It is therefore not empty, every
    entry kept from before lies within the window, and so does the new one
    when the window is not negative.  The answer is [True] exactly when the
    length of that list, the present call included, is above [limit].
    Other ids and the two settings are left alone. *)
Theorem hit_window (uid now : Z) (self : Flood) :
  let old := default [] (bucket self !! uid) in
  let kept := filter (λ t, now - t ≤ window self) old in
  let self' := (hit uid now self).2 in
  bucket self' !! uid = Some (kept ++ [now])
  ∧ kept ++ [now] ≠ []
  ∧ kept `sublist_of` old
  ∧ (∀ t, t ∈ kept ↔ t ∈ old ∧ now - t ≤ window self)
  ∧ (0 ≤ window self → Forall (λ t, now - t ≤ window self) (kept ++ [now]))
  ∧ ((hit uid now self).1 = true
     ↔ limit self < Z.of_nat (length (kept ++ [now])))
  ∧ window self' = window self ∧ limit self' = limit self
  ∧ (∀ k, k ≠ uid → bucket self' !! k = bucket self !! k).
Proof.
  intros old kept self'. subst old kept self'. unfold hit; cbn.
  split_and!.
  - by rewrite lookup_insert_eq.
  - by intros ?%app_eq_nil%proj2.
  - apply sublist_filter.
  - intros t. rewrite list_elem_of_filter. tauto.
  - intros Hw. apply Forall_app. split.
    + apply Forall_forall. by intros t ?%list_elem_of_filter%proj1.
    + apply Forall_singleton. lia.
  - apply bool_decide_eq_true.
  - done.
  - done.
  - intros k Hk. by rewrite lookup_insert_ne.
Qed.

Lemma hit_window_witness :
  let self := MkFlood 8 7 {[42 := [5; 11; 12; 19]]} in
  let kept := filter (λ t, 20 - t ≤ window self)
                (default [] (bucket self !! 42)) in
  bucket (hit 42 20 self).2 !! 42 = Some (kept ++ [20])
  ∧ Forall (λ t, 20 - t ≤ window self) (kept ++ [20])
  ∧ kept = [12; 19].
Proof.
  intros self kept.
  destruct (hit_window 42 20 self) as (H1 & _ & _ & _ & H5 & _).
  split_and!; [exact H1 | apply H5; cbn; lia | reflexivity].
Defined.

Section flood_facts.
Implicit Types (uid now : Z) (self : Flood) (times old : list Z).

Lemma filter_keeps_all (P : Z → Prop) `{∀ x, Decision (P x)} (l : list Z) :
  Forall P l → filter P l = l.
Proof.
  induction 1 as [|x l Hx _ IH]; [done|].
  by rewrite filter_cons_True, IH.
Qed.

Lemma filter_drops_all (P : Z → Prop) `{∀ x, Decision (P x)} (l : list Z) :
  Forall (λ x, ¬ P x) l → filter P l = [].
Proof.
  induction 1 as [|x l Hx _ IH]; [done|].
  by rewrite filter_cons_False.
Qed.

Lemma within_app w l1 l2 :
  within w (l1 ++ l2) →
  within w l1 ∧ within w l2 ∧ Forall (λ t, Forall (λ t', t' - t ≤ w) l2) l1.
Proof.
  induction l1 as [|t l1 IH]; cbn.
  - by intros ?.
  - intros [[H1 H2]%Forall_app Hw]. destruct (IH Hw) as (? & ? & ?).
    by repeat constructor.
Qed.

Lemma hits_nothing_dropped uid times self old :
  default [] (bucket self !! uid) = old →
  Forall (λ t, Forall (λ t', t' - t ≤ window self) times) old →
  within (window self) times →
  (hits uid times self).1 = answers (limit self) (length old) (length times)
  ∧ bucket (hits uid times self).2 !! uid
    = (if times is [] then bucket self !! uid else Some (old ++ times))
  ∧ window (hits uid times self).2 = window self
  ∧ limit (hits uid times self).2 = limit self.
Proof.
  revert self old.
  induction times as [|now rest IH]; intros self old Hold Hall Hw; [done|].
  cbn [hits]. destruct Hw as [Hnow Hrest].
  assert (Hkeep : filter (λ t, now - t ≤ window self) old = old).
  { apply filter_keeps_all. eapply Forall_impl; [apply Hall|].
    cbn. by intros t ?%Forall_cons_1%proj1. }
  unfold hit. rewrite Hold, Hkeep.
  set (self1 := MkFlood _ _ _).
  specialize (IH self1 (old ++ [now])).
  destruct (hits uid rest self1) as [bs self2] eqn:E. cbn in IH |- *.
  destruct IH as (IH1 & IH2 & IH3 & IH4).
  - by rewrite lookup_insert_eq.
  - apply Forall_app. split.
    + eapply Forall_impl; [apply Hall|].
      cbn. by intros t ?%Forall_cons_1%proj2.
    + by apply Forall_singleton.
  - done.
  - rewrite IH1, IH2, IH3, IH4. rewrite length_app, Nat.add_1_r.
    split_and!; try done.
    destruct rest; [by rewrite lookup_insert_eq | by rewrite <- app_assoc].
Qed.

Lemma answers_over limit n k :
  limit ≤ Z.of_nat n → answers limit n k = replicate k true.
Proof.
  revert n. induction k as [|k IH]; intros n Hn; [done|]. cbn.
  rewrite bool_decide_eq_true_2 by lia. f_equal. apply IH. lia.
Qed.

End flood_facts.

(** C3.  With [window = 8] and [limit = 7], take an id with nothing stored
    and a run of calls in which no call comes more than 8 seconds after an
    earlier one, as is the case of eight calls within one second and of any
    further call still inside the window they opened.  The first seven
    calls answer [False], the eighth and every further call answer [True].
    A call made more than 8 seconds after all of them answers [False], and
    leaves its own timestamp as the whole stored window. *)
Theorem flood_eighth_call_trips (uid : Z) (self : Flood)
    (first8 more : list Z) (later : Z) :
  window self = 8 →
  limit self = 7 →
  default [] (bucket self !! uid) = [] →
  length first8 = 8%nat →
  within 8 (first8 ++ more) →
  Forall (λ t, 8 < later - t) (first8 ++ more) →
  let run := hits uid (first8 ++ more) self in
  run.1 = replicate 7 false ++ replicate (S (length more)) true
  ∧ (hit uid later run.2).1 = false
  ∧ bucket (hit uid later run.2).2 !! uid = Some [later].
Proof.
  intros Hw Hl Hb Hlen Hin Hlater run.
  destruct (hits_nothing_dropped uid (first8 ++ more) self [] Hb)
    as (Hans & Hbk & Hw' & Hl').
  { constructor. }
  { by rewrite Hw. }
  fold run in Hans, Hbk, Hw', Hl'.
  assert (Hstored : bucket run.2 !! uid = Some (first8 ++ more)).
  { rewrite Hbk. by destruct first8. }
  assert (Hdrop : filter (λ t, later - t ≤ window run.2) (first8 ++ more) = []).
  { apply filter_drops_all. eapply Forall_impl; [apply Hlater|].
    cbn. intros t Ht. rewrite Hw', Hw. lia. }
  split_and!.
  - rewrite Hans, Hl, length_app, Hlen.
    change (answers 7 (length []) (8 + length more)) with
      (replicate 7 false ++ true :: answers 7 8 (length more)).
    by rewrite answers_over.
  - unfold hit. rewrite Hstored. cbn. rewrite Hdrop, Hl', Hl. done.
  - unfold hit. rewrite Hstored. cbn. rewrite Hdrop. by rewrite lookup_insert_eq.
Qed.

Lemma flood_eighth_call_trips_witness :
  (hits 42 ([100; 100; 100; 100; 101; 101; 101; 101] ++ [105; 108])
     Flood_default).1
  = replicate 7 false ++ replicate 3 true
  ∧ (hit 42 117
       (hits 42 ([100; 100; 100; 100; 101; 101; 101; 101] ++ [105; 108])
          Flood_default).2).1 = false
  ∧ bucket
      (hit 42 117
         (hits 42 ([100; 100; 100; 100; 101; 101; 101; 101] ++ [105; 108])
            Flood_default).2).2 !! 42 = Some [117].
Proof.
  apply (flood_eighth_call_trips 42 Flood_default
           [100; 100; 100; 100; 101; 101; 101; 101] [105; 108] 117).
  - reflexivity.
  - reflexivity.
  - reflexivity.
  - reflexivity.
  - cbn. repeat split; repeat constructor; lia.
  - cbn. repeat constructor; lia.
Defined.

(** ** The guard gate *)

(** C9.  An update without a user passes the gate at once: [guard] answers
    [True] and the database, the flood windows and the trace are what they
    were. *)
Theorem guard_without_user (OWNER_ID : Z) (t_upsert t_seen t_hit : Z)
    (w : World) :
  guard OWNER_ID (MkUpdate None) t_upsert t_seen t_hit w = (true, w).
Proof. reflexivity. Qed.

Lemma is_banned_after_touch (uid : Z) (fn un : option text) (t1 t2 : Z)
    (d : Store) :
  DB.is_banned uid (DB.set_last_seen uid t2 (DB.upsert_user uid fn un t1 d))
  = DB.is_banned uid d.
Proof.
  unfold DB.is_banned.
  rewrite set_last_seen_lookup, upsert_user_lookup.
  by destruct (users_tbl d !! uid).
Qed.

(** [guard] on the update of a user, by cases on what it reads. *)
Lemma guard_user (OWNER_ID : Z) (u : User) (t_upsert t_seen t_hit : Z)
    (w : World) :
  let update := MkUpdate (Some u) in
  let d := DB.set_last_seen (id u) t_seen
             (DB.upsert_user (id u) (Some (Py.or_empty (user_first_name u)))
                (Some (Py.or_empty (user_username u))) t_upsert (db w)) in
  let flood := hit (id u) t_hit (FLOOD w) in
  guard OWNER_ID update t_upsert t_seen t_hit w =
    let '(banned, reason) := DB.is_banned (id u) d in
    let w1 := MkWorld d (FLOOD w) (out w) in
    if banned then
      (false, emit (Reply (BannedNotice (if Py.truthy reason
                                         then Some (esc_md reason)
                                         else None))) w1)
    else if negb (is_admin OWNER_ID update) then
      (negb flood.1,
       MkWorld d flood.2
         (out w ++ (if flood.1 then [Reply FloodNotice] else [])))
    else (true, w1).
Proof.
  intros update d flood. subst flood. unfold guard.
  cbn [effective_user update].
  fold d. destruct (DB.is_banned (id u) d) as [[] reason]; [done|].
  destruct (negb (is_admin OWNER_ID update)); [|done].
  cbn [FLOOD db out].
  destruct (hit (id u) t_hit (FLOOD w)) as [[] f]; cbn; [done|].
  by rewrite app_nil_r.
Qed.

(** C1.  For an update of user [u], [guard] first runs [upsert_user] and
    [set_last_seen], so the database it leaves is always the one these two
    produce, with a row for [u] last seen at the second reading; then it
    reads the ban status, which is the one stored before the call.
    - Banned: the answer is [False] with the ban notice and its reason, and
      the limiter is untouched.  Nothing here looks at who the operator is,
      so a banned operator is turned away like anyone else.
    - Not banned, operator: the answer is [True], the limiter is untouched.
    - Not banned, anyone else: the limiter is hit once, and the answer is
      [False] with the flood notice exactly when the hit is over the
      limit. *)
Theorem guard_order (OWNER_ID : Z) (u : User) (t_upsert t_seen t_hit : Z)
    (w : World) :
  let update := MkUpdate (Some u) in
  let d := DB.set_last_seen (id u) t_seen
             (DB.upsert_user (id u) (Some (Py.or_empty (user_first_name u)))
                (Some (Py.or_empty (user_username u))) t_upsert (db w)) in
  let res := guard OWNER_ID update t_upsert t_seen t_hit w in
  let flood := hit (id u) t_hit (FLOOD w) in
  db res.2 = d
  ∧ (∃ r, users_tbl d !! id u = Some r ∧ users.last_seen r = t_seen)
  ∧ DB.is_banned (id u) d = DB.is_banned (id u) (db w)
  ∧ (∀ reason, DB.is_banned (id u) d = (true, reason) →
       res.1 = false
       ∧ FLOOD res.2 = FLOOD w
       ∧ out res.2 =
         out w ++ [Reply (BannedNotice (if Py.truthy reason
                                        then Some (esc_md reason)
                                        else None))])
  ∧ (∀ reason, DB.is_banned (id u) d = (false, reason) →
       is_admin OWNER_ID update = true →
       res.1 = true ∧ FLOOD res.2 = FLOOD w ∧ out res.2 = out w)
  ∧ (∀ reason, DB.is_banned (id u) d = (false, reason) →
       is_admin OWNER_ID update = false →
       res.1 = negb flood.1
       ∧ FLOOD res.2 = flood.2
       ∧ out res.2 = out w ++ (if flood.1 then [Reply FloodNotice] else [])).
Proof.
  intros update d res flood.
  assert (Hres := guard_user OWNER_ID u t_upsert t_seen t_hit w).
  cbv zeta in Hres. fold update d flood res in Hres.
  split_and!.
  - rewrite Hres. destruct (DB.is_banned (id u) d) as [[] reason]; [done|].
    by destruct (negb (is_admin OWNER_ID update)).
  - subst d. rewrite set_last_seen_lookup, upsert_user_lookup. cbn. eauto.
  - apply is_banned_after_touch.
  - intros reason E. rewrite Hres, E. done.
  - intros reason E Ha. rewrite Hres, E, Ha. done.
  - intros reason E Ha. rewrite Hres, E, Ha. done.
Qed.

(** The operator 1, banned for "x", is turned away and no window is
    written. *)
Lemma guard_order_witness :
  let w := MkWorld (DB.ban 1 [120]%N 5 DB.init) Flood_default [] in
  let res := guard 1 (MkUpdate (Some (MkUser 1 None None))) 10 10 10 w in
  is_admin 1 (MkUpdate (Some (MkUser 1 None None))) = true
  ∧ res.1 = false
  ∧ FLOOD res.2 = Flood_default
  ∧ out res.2 = [Reply (BannedNotice (Some [120]%N))].
Proof.
  intros w res. split; [reflexivity|].
  apply (proj1 (proj2 (proj2 (proj2
    (guard_order 1 (MkUser 1 None None) 10 10 10 w)))) (Some [120]%N)).
  reflexivity.
Defined.

(** ** The broadcast *)

Section broadcast_facts.
Implicit Types (env : Env) (w : World) (msg : text) (user_ids : list Z).

Lemma sends_emit_send w uid msg :
  sends (out (emit (Send uid msg) w)) = sends (out w) ++ [(uid, msg)].
Proof. unfold sends; cbn. by rewrite omap_app. Qed.

Lemma sends_emit_reply w n : sends (out (emit (Reply n) w)) = sends (out w).
Proof. unfold sends; cbn. by rewrite omap_app, app_nil_r. Qed.

Lemma sends_emit_edit w n : sends (out (emit (Edit n) w)) = sends (out w).
Proof. unfold sends; cbn. by rewrite omap_app, app_nil_r. Qed.

Lemma outcomes_length env i user_ids :
  length (outcomes env i user_ids) = length user_ids.
Proof. revert i. induction user_ids; intros i; cbn; [done | by f_equal]. Qed.

Lemma count_split (bs : list bool) :
  (length (filter (λ b, b = true) bs) + length (filter (λ b, b = false) bs)
   = length bs)%nat.
Proof.
  induction bs as [|[] bs IH]; [done| |].
  - rewrite filter_cons_True, filter_cons_False by done. cbn. lia.
  - rewrite filter_cons_False, filter_cons_True by done. cbn. lia.
Qed.

Lemma deliver_spec env msg total i user_ids ok fail w :
  let res := deliver env msg total i user_ids ok fail w in
  let bs := outcomes env i user_ids in
  db res.2 = db w
  ∧ FLOOD res.2 = FLOOD w
  ∧ sends (out res.2) = sends (out w) ++ ((λ uid, (uid, msg)) <$> user_ids)
  ∧ res.1.1 = ok + Z.of_nat (length (filter (λ b, b = true) bs))
  ∧ res.1.2 = fail + Z.of_nat (length (filter (λ b, b = false) bs)).
Proof.
  revert i ok fail w.
  induction user_ids as [|uid rest IH]; intros i ok fail w.
  - cbn. rewrite app_nil_r. split_and!; [done..|lia|lia].
  - cbn [deliver outcomes]. cbv zeta.
    set (w1 := if progress_due env i then _ else _).
    assert (Hw1 : db w1 = db w ∧ FLOOD w1 = FLOOD w
                  ∧ sends (out w1) = sends (out w) ++ [(uid, msg)]).
    { subst w1. destruct (progress_due env i).
      - rewrite sends_emit_edit, sends_emit_send. done.
      - rewrite sends_emit_send. done. }
    destruct Hw1 as (Hd & Hf & Hs).
    match goal with |- context [deliver env msg total (S i) rest ?a ?b w1] =>
      destruct (IH (S i) a b w1) as (IH1 & IH2 & IH3 & IH4 & IH5) end.
    rewrite IH1, IH2, IH3, IH4, IH5, Hd, Hf, Hs. rewrite <- app_assoc.
    split_and!; [done..| |].
    + destruct (send_ok env i uid).
      * rewrite filter_cons_True by done. cbn [length]. lia.
      * rewrite filter_cons_False by done. lia.
    + destruct (send_ok env i uid).
      * rewrite filter_cons_False by done. lia.
      * rewrite filter_cons_True by done. cbn [length]. lia.
Qed.

Lemma le_foldr_max (l : list Z) (k : Z) : k ∈ l → k ≤ foldr Z.max 0 l.
Proof. induction 1 as [k l | k y l _ IH]; cbn; lia. Qed.

Lemma keys_le_max (t : gmap Z broadcasts.row) (k : Z) :
  is_Some (t !! k) → k ≤ foldr Z.max 0 (map_to_list t).*1.
Proof.
  intros [r Hr]. apply elem_of_map_to_list in Hr.
  apply le_foldr_max, list_elem_of_fmap. by exists (k, r).
Qed.

Lemma next_id_fresh (t : gmap Z broadcasts.row) : t !! DB.next_id t = None.
Proof.
  destruct (t !! DB.next_id t) as [r|] eqn:E; [|done].
  assert (H := keys_le_max t (DB.next_id t) (mk_is_Some _ _ E)).
  unfold DB.next_id in H. lia.
Qed.

Lemma broadcast_unfold env update (u : User) (args : list text) (t_log : Z) w :
  effective_user update = Some u →
  Py.strip (Py.join args) ≠ [] →
  DB.user_ids_active (db w) ≠ [] →
  broadcast env update args t_log w =
  let msg := Py.strip (Py.join args) in
  let user_ids := DB.user_ids_active (db w) in
  let total := length user_ids in
  let bid := (broadcast_begin (id u) msg t_log w).1 in
  let w0 := (broadcast_begin (id u) msg t_log w).2 in
  let started := BroadcastStarted total bid in
  if reply_ok env started then
    let run := deliver env msg total 1 user_ids 0 0 (emit (Reply started) w0) in
    let done := BroadcastDone total run.1.1 run.1.2 bid in
    say env (Edit done) done (broadcast_end bid run.1.1 run.1.2 run.2)
  else (Raised, emit (Reply started) w0).
Proof.
  intros Hu Hmsg Hids. unfold broadcast. rewrite Hu.
  destruct (Py.strip (Py.join args)) as [|c msg'] eqn:Em; [done|].
  destruct (DB.user_ids_active (db w)) as [|x ids'] eqn:Ei; [done|].
  cbv zeta. unfold broadcast_begin, DB.log_broadcast. cbn [fst snd].
  unfold say at 1 3.
  destruct (reply_ok env _); [|done].
  by destruct (deliver _ _ _ _ _ _ _ _) as [[ok fail] w1].
Qed.

End broadcast_facts.

(** C2.  A broadcast by user [u] with a non-blank message, over a snapshot
    [user_ids] of [N] active recipients, whose opening reply is accepted
    by the transport and in which [K] of the sends raise.
    - [log_broadcast] creates the record under a new id with both counts 0,
      before any send.
    - The snapshot lists no id twice.  The loop sends to every id of it
      once, in snapshot order, whatever the outcome of each send, and
      writes nothing to the database.
    - The database at the end is the one a single
      [update_broadcast_result] makes of the one [log_broadcast] left: the
      record holds [sent_ok = N - K] and [sent_fail = K], whose sum is [N];
      the other records and the users are as before.
    - The handler then reports these counts in its closing edit. *)
Theorem broadcast_accounting (env : Env) (update : Update) (u : User)
    (args : list text) (t_log : Z) (w : World) :
  let msg := Py.strip (Py.join args) in
  let user_ids := DB.user_ids_active (db w) in
  let N := length user_ids in
  let K := failures env user_ids in
  let bid := DB.next_id (broadcasts_tbl (db w)) in
  let started := BroadcastStarted N bid in
  effective_user update = Some u →
  msg ≠ [] →
  user_ids ≠ [] →
  reply_ok env started = true →
  let w0 := (broadcast_begin (id u) msg t_log w).2 in
  let run := deliver env msg N 1 user_ids 0 0 (emit (Reply started) w0) in
  let res := broadcast env update args t_log w in
  broadcasts_tbl (db w) !! bid = None
  ∧ broadcasts_tbl (db w0) !! bid
    = Some (broadcasts.Row (id u) msg t_log 0 0)
  ∧ NoDup user_ids
  ∧ sends (out w0) = sends (out w)
  ∧ sends (out run.2) = sends (out w) ++ ((λ uid, (uid, msg)) <$> user_ids)
  ∧ db run.2 = db w0
  ∧ run.1 = (Z.of_nat N - K, K)
  ∧ db res.2 = DB.update_broadcast_result bid (Z.of_nat N - K) K (db w0)
  ∧ broadcasts_tbl (db res.2)
    = <[bid := broadcasts.Row (id u) msg t_log (Z.of_nat N - K) K]>
        (broadcasts_tbl (db w))
  ∧ users_tbl (db res.2) = users_tbl (db w)
  ∧ sends (out res.2) = sends (out run.2)
  ∧ out res.2 = out run.2 ++ [Edit (BroadcastDone N (Z.of_nat N - K) K bid)]
  ∧ 0 ≤ K ≤ Z.of_nat N
  ∧ (Z.of_nat N - K) + K = Z.of_nat N.
Proof.
  intros msg user_ids N K bid started Hu Hmsg Hids Hstart w0 run res.
  assert (Hfresh : broadcasts_tbl (db w) !! bid = None)
    by apply next_id_fresh.
  assert (Hw0 : w0 =
    MkWorld (MkStore (users_tbl (db w))
               (<[bid := broadcasts.Row (id u) msg t_log 0 0]>
                  (broadcasts_tbl (db w))))
            (FLOOD w) (out w)) by reflexivity.
  destruct (deliver_spec env msg N 1 user_ids 0 0 (emit (Reply started) w0))
    as (Hdb & _ & Hsends & Hok & Hfail).
  fold run in Hdb, Hsends, Hok, Hfail.
  rewrite sends_emit_reply in Hsends. change (db (emit _ w0)) with (db w0) in Hdb.
  assert (HK : 0 ≤ K ≤ Z.of_nat N).
  { subst K N. unfold failures.
    pose proof (length_filter (λ b, b = false) (outcomes env 1 user_ids)).
    rewrite outcomes_length in *. lia. }
  assert (Hrun : run.1 = (Z.of_nat N - K, K)).
  { destruct run as [[ok fail] w1]. cbn in Hok, Hfail |- *.
    subst K N. unfold failures.
    pose proof (count_split (outcomes env 1 user_ids)) as Hc.
    rewrite outcomes_length in Hc. f_equal; lia. }
  assert (Hres : res =
    say env (Edit (BroadcastDone N run.1.1 run.1.2 bid))
      (BroadcastDone N run.1.1 run.1.2 bid)
      (broadcast_end bid run.1.1 run.1.2 run.2)).
  { subst res. rewrite (broadcast_unfold env update u args t_log w Hu Hmsg Hids).
    cbv zeta. fold msg user_ids N.
    change (broadcast_begin (id u) msg t_log w).1 with bid.
    change (broadcast_begin (id u) msg t_log w).2 with w0.
    fold started. rewrite Hstart. reflexivity. }
  rewrite Hrun in Hres. cbn [fst snd] in Hres.
  assert (Hend : db res.2
    = DB.update_broadcast_result bid (Z.of_nat N - K) K (db w0)).
  { rewrite Hres. unfold say, broadcast_end; cbn. by rewrite Hdb. }
  assert (Hupd : DB.update_broadcast_result bid (Z.of_nat N - K) K (db w0)
    = MkStore (users_tbl (db w))
        (<[bid := broadcasts.Row (id u) msg t_log (Z.of_nat N - K) K]>
           (broadcasts_tbl (db w)))).
  { rewrite Hw0. unfold DB.update_broadcast_result; cbn.
    rewrite lookup_insert_eq; cbn. by rewrite insert_insert_eq. }
  split_and!.
  - exact Hfresh.
  - rewrite Hw0. cbn. by rewrite lookup_insert_eq.
  - apply user_ids_active_NoDup.
  - reflexivity.
  - exact Hsends.
  - exact Hdb.
  - exact Hrun.
  - exact Hend.
  - by rewrite Hend, Hupd.
  - by rewrite Hend, Hupd.
  - rewrite Hres. unfold say. cbn [snd]. by rewrite sends_emit_edit.
  - rewrite Hres. reflexivity.
  - lia.
  - lia.
  - lia.
Qed.

(** When the opening reply raises, the handler ends there: the record
    stays as [log_broadcast] made it and nothing is sent. *)
Lemma broadcast_opening_reply_raises (env : Env) (update : Update) (u : User)
    (args : list text) (t_log : Z) (w : World) :
  let msg := Py.strip (Py.join args) in
  let user_ids := DB.user_ids_active (db w) in
  let bid := DB.next_id (broadcasts_tbl (db w)) in
  effective_user update = Some u →
  msg ≠ [] →
  user_ids ≠ [] →
  reply_ok env (BroadcastStarted (length user_ids) bid) = false →
  let res := broadcast env update args t_log w in
  res.1 = Raised
  ∧ broadcasts_tbl (db res.2) !! bid
    = Some (broadcasts.Row (id u) msg t_log 0 0)
  ∧ sends (out res.2) = sends (out w).
Proof.
  intros msg user_ids bid Hu Hmsg Hids Hstart res. subst res.
  rewrite (broadcast_unfold env update u args t_log w Hu Hmsg Hids).
  cbv zeta. fold msg user_ids.
  change (broadcast_begin (id u) msg t_log w).1 with bid.
  rewrite Hstart. split_and!.
  - reflexivity.
  - cbn. by rewrite lookup_insert_eq.
  - cbn [snd]. rewrite sends_emit_reply. reflexivity.
Qed.

(** Operator 9 broadcasts "hi" to the active users 9 and 3 (5 is banned);
    the send to 3 raises. *)
Lemma broadcast_accounting_witness :
  let d := DB.ban 5 [65]%N 100
             (DB.upsert_user 3 None None 7
                (DB.upsert_user 9 None None 7 DB.init)) in
  let env := MkEnv (λ _ uid, negb (uid =? 3)) (λ _, true) (λ _, false) in
  let update := MkUpdate (Some (MkUser 9 None None)) in
  let res := broadcast env update [[104; 105]%N] 50
               (MkWorld d Flood_default []) in
  DB.user_ids_active d = [3; 9]
  ∧ broadcasts_tbl (db res.2) !! 1
    = Some (broadcasts.Row 9 [104; 105]%N 50 1 1).
Proof.
  intros d env update res. split; [reflexivity|].
  destruct (broadcast_accounting env update (MkUser 9 None None)
              [[104; 105]%N] 50 (MkWorld d Flood_default []))
    as (_ & _ & _ & _ & _ & _ & _ & _ & H & _).
  - reflexivity.
  - vm_compute. discriminate.
  - vm_compute. discriminate.
  - reflexivity.
  - fold res in H. rewrite H. reflexivity.
Defined.

Section rejection_facts.
Implicit Types (env : Env) (w : World) (d : Store).

Lemma set_last_seen_broadcasts uid ts d :
  broadcasts_tbl (DB.set_last_seen uid ts d) = broadcasts_tbl d.
Proof. unfold DB.set_last_seen. by destruct (users_tbl d !! uid). Qed.

Lemma say_frame env e n w :
  db (say env e n w).2 = db w
  ∧ FLOOD (say env e n w).2 = FLOOD w
  ∧ out (say env e n w).2 = out w ++ [e].
Proof. done. Qed.

(** [guard] writes no broadcast record and sends nothing to recipients. *)
Lemma guard_frame OWNER_ID update t1 t2 t3 w :
  broadcasts_tbl (db (guard OWNER_ID update t1 t2 t3 w).2)
  = broadcasts_tbl (db w)
  ∧ sends (out (guard OWNER_ID update t1 t2 t3 w).2) = sends (out w).
Proof.
  destruct update as [[u|]]; [|done].
  rewrite guard_user. cbv zeta.
  destruct (hit (id u) t3 (FLOOD w)) as [over f].
  destruct (DB.is_banned _ _) as [[] reason].
  - cbn. rewrite set_last_seen_broadcasts. split; [done|].
    unfold sends. by rewrite omap_app, app_nil_r.
  - destruct (negb (is_admin OWNER_ID (MkUpdate (Some u)))); cbn;
      rewrite set_last_seen_broadcasts; (split; [done|]); [|done].
    unfold sends. rewrite omap_app.
    destruct over; cbn; by rewrite app_nil_r.
Qed.

Lemma broadcast_blank env update args t_log w :
  Py.strip (Py.join args) = [] →
  broadcast env update args t_log w
  = say env (Reply BroadcastUsage) BroadcastUsage w.
Proof. intros E. unfold broadcast. by rewrite E. Qed.

Lemma broadcast_nobody env update args t_log w :
  DB.user_ids_active (db w) = [] →
  broadcast env update args t_log w
  = if Py.strip (Py.join args) is []
    then say env (Reply BroadcastUsage) BroadcastUsage w
    else say env (Reply NoUsersFound) NoUsersFound w.
Proof.
  intros E. unfold broadcast. rewrite E.
  by destruct (Py.strip (Py.join args)).
Qed.

End rejection_facts.

(** C4.  When the message is blank after [strip], or when no active user is
    found, [broadcast] leaves the database as it was, so no record is
    created, and calls the transport once, for the rejection reply: there
    is no send.  The same holds of the whole command, whose gate comes
    first: [broadcast_cmd] leaves the [broadcasts] table as it was and
    sends to nobody. *)
Theorem broadcast_rejected (env : Env) (update : Update) (args : list text)
    (t_log : Z) (w : World) :
  let msg := Py.strip (Py.join args) in
  let res := broadcast env update args t_log w in
  ((msg = [] ∨ DB.user_ids_active (db w) = []) →
     db res.2 = db w
     ∧ FLOOD res.2 = FLOOD w
     ∧ out res.2
       = out w ++ [Reply (if msg is [] then BroadcastUsage else NoUsersFound)]
     ∧ sends (out res.2) = sends (out w))
  ∧ (∀ OWNER_ID t_upsert t_seen t_hit,
       let gate := guard OWNER_ID update t_upsert t_seen t_hit w in
       let cmd := broadcast_cmd OWNER_ID env update args
                    t_upsert t_seen t_hit t_log w in
       (msg = [] ∨ DB.user_ids_active (db gate.2) = []) →
       broadcasts_tbl (db cmd.2) = broadcasts_tbl (db w)
       ∧ sends (out cmd.2) = sends (out w)).
Proof.
  intros msg res.
  assert (Hbody : ∀ w',
    (msg = [] ∨ DB.user_ids_active (db w') = []) →
    broadcast env update args t_log w'
    = say env (Reply (if msg is [] then BroadcastUsage else NoUsersFound))
        (if msg is [] then BroadcastUsage else NoUsersFound) w').
  { intros w' [E|E].
    - rewrite broadcast_blank by done. by rewrite E.
    - rewrite broadcast_nobody by done. fold msg. by destruct msg. }
  split.
  - intros H. subst res. rewrite (Hbody w H).
    split_and!; try done. apply sends_emit_reply.
  - intros OWNER_ID t1 t2 t3 gate cmd H.
    destruct (guard_frame OWNER_ID update t1 t2 t3 w) as [Hb Hs].
    fold gate in Hb, Hs. subst cmd. unfold broadcast_cmd. fold gate.
    destruct gate as [pass w1]. cbn [fst snd] in *.
    destruct pass; cbn [negb]; [|done].
    destruct (negb (is_admin OWNER_ID update)).
    + cbn [say snd]. by rewrite sends_emit_reply.
    + rewrite (Hbody w1 H). cbn [say snd]. by rewrite sends_emit_reply.
Qed.

(** A message of white space alone, with users to send to; and a message
    with nobody to send to. *)
Lemma broadcast_rejected_witness :
  let env := MkEnv (λ _ _, true) (λ _, true) (λ _, false) in
  let update := MkUpdate (Some (MkUser 9 None None)) in
  let w := MkWorld (DB.upsert_user 3 None None 7 DB.init) Flood_default [] in
  let w' := MkWorld DB.init Flood_default [] in
  (db (broadcast env update [[32]; [9; 160]]%N 50 w).2 = db w
   ∧ out (broadcast env update [[32]; [9; 160]]%N 50 w).2
     = [Reply BroadcastUsage])
  ∧ (db (broadcast env update [[104; 105]]%N 50 w').2 = db w'
     ∧ out (broadcast env update [[104; 105]]%N 50 w').2
       = [Reply NoUsersFound]).
Proof.
  intros env update w w'. split.
  - destruct (proj1 (broadcast_rejected env update [[32]; [9; 160]]%N 50 w))
      as (H1 & _ & H2 & _); [left; reflexivity|].
    split; [exact H1 | exact H2].
  - destruct (proj1 (broadcast_rejected env update [[104; 105]]%N 50 w'))
      as (H1 & _ & H2 & _); [right; reflexivity|].
    split; [exact H1 | exact H2].
Defined.

(** * Further properties *)

(** ** The recipient store, over histories of calls *)

Section history_facts.
Implicit Types (d : Store) (c : db_call) (cs : list db_call) (k t : Z).

Lemma db_apply_keeps_row c d k r :
  users_tbl d !! k = Some r →
  ∃ r', users_tbl (db_apply c d) !! k = Some r'
        ∧ users.joined_at r' = users.joined_at r.
Proof.
  intros E. destruct c as [uid fn un ts|uid ts|uid reason ts|uid| |];
    cbn [db_apply].
  - destruct (decide (k = uid)) as [->|Hne].
    + rewrite upsert_user_lookup, E. eauto.
    + rewrite upsert_user_lookup_ne by done. eauto.
  - destruct (decide (k = uid)) as [->|Hne].
    + rewrite set_last_seen_lookup, E. cbn. eauto.
    + rewrite set_last_seen_lookup_ne by done. eauto.
  - destruct (decide (k = uid)) as [->|Hne].
    + rewrite ban_lookup, E. eauto.
    + rewrite ban_lookup_ne by done. eauto.
  - destruct (decide (k = uid)) as [->|Hne].
    + rewrite unban_lookup, E. cbn. eauto.
    + rewrite unban_lookup_ne by done. eauto.
  - eauto.
  - rewrite update_broadcast_result_users. eauto.
Qed.

Lemma rows_dated_mono t t' d : t ≤ t' → rows_dated t d → rows_dated t' d.
Proof. intros Ht Hd k r E. destruct (Hd k r E). lia. Qed.

Lemma rows_dated_apply t c d :
  rows_dated t d →
  match call_time c with
  | Some ts => t ≤ ts → rows_dated ts (db_apply c d)
  | None => rows_dated t (db_apply c d)
  end.
Proof.
  intros Hd. destruct c as [uid fn un ts|uid ts|uid reason ts|uid|a m ts|];
    cbn [call_time db_apply].
  - intros Ht k r. destruct (decide (k = uid)) as [->|Hne].
    + rewrite upsert_user_lookup. intros [= <-].
      destruct (users_tbl d !! uid) as [r0|] eqn:E; cbn; [|lia].
      destruct (Hd _ _ E). lia.
    + rewrite upsert_user_lookup_ne by done. intros E.
      destruct (Hd _ _ E). lia.
  - intros Ht k r. destruct (decide (k = uid)) as [->|Hne].
    + rewrite set_last_seen_lookup.
      destruct (users_tbl d !! uid) as [r0|] eqn:E; [|done].
      intros [= <-]. cbn. destruct (Hd _ _ E). lia.
    + rewrite set_last_seen_lookup_ne by done. intros E.
      destruct (Hd _ _ E). lia.
  - intros Ht k r. destruct (decide (k = uid)) as [->|Hne].
    + rewrite ban_lookup. intros [= <-].
      destruct (users_tbl d !! uid) as [r0|] eqn:E; cbn; [|lia].
      destruct (Hd _ _ E). lia.
    + rewrite ban_lookup_ne by done. intros E.
      destruct (Hd _ _ E). lia.
  - intros k r. destruct (decide (k = uid)) as [->|Hne].
    + rewrite unban_lookup.
      destruct (users_tbl d !! uid) as [r0|] eqn:E; [|done].
      intros [= <-]. cbn. apply (Hd _ _ E).
    + rewrite unban_lookup_ne by done. apply Hd.
  - intros Ht. apply (rows_dated_mono t); [done|]. exact Hd.
  - intros k r. rewrite update_broadcast_result_users. apply Hd.
Qed.

Lemma rows_dated_run cs t d :
  rows_dated t d → clock_ordered t cs → ∃ t', rows_dated t' (db_run cs d).
Proof.
  revert t d. induction cs as [|c cs IH]; intros t d Hd Hcs; [by exists t|].
  cbn in Hcs |- *. pose proof (rows_dated_apply t c d Hd) as Hc.
  destruct (call_time c) as [ts|].
  - destruct Hcs as [Ht Hcs]. apply (IH ts); auto.
  - apply (IH t); auto.
Qed.

End history_facts.

(** X1.  Rows are never deleted and [joined_at] is written once: whatever
    calls of the writing methods follow, a row that exists keeps existing
    with the [joined_at] it has. *)
Theorem row_stays_joined_at_fixed (cs : list db_call) (d : Store) (k : Z)
    (r : users.row) :
  users_tbl d !! k = Some r →
  ∃ r', users_tbl (db_run cs d) !! k = Some r'
        ∧ users.joined_at r' = users.joined_at r.
Proof.
  revert d r. induction cs as [|c cs IH]; intros d r E; [by exists r|].
  destruct (db_apply_keeps_row c d k r E) as (r1 & E1 & J1).
  destruct (IH _ _ E1) as (r2 & E2 & J2).
  exists r2. split; [exact E2 | congruence].
Qed.

Lemma row_stays_joined_at_fixed_witness :
  ∃ r', users_tbl
          (db_run [Ban 7 [120]%N 30; UpsertUser 7 None None 40; Unban 7;
                   SetLastSeen 7 50]
             (DB.upsert_user 7 None None 10 DB.init)) !! 7 = Some r'
        ∧ users.joined_at r' = 10.
Proof.
  apply (row_stays_joined_at_fixed
           [Ban 7 [120]%N 30; UpsertUser 7 None None 40; Unban 7;
            SetLastSeen 7 50]
           (DB.upsert_user 7 None None 10 DB.init) 7
           (users.Row [] [] 10 10 0 None)).
  reflexivity.
Defined.

(** X2.  When the clock never steps back between the calls, every row of a
    database that started fresh has [joined_at <= last_seen]. *)
Theorem joined_at_le_last_seen (t : Z) (cs : list db_call) (k : Z)
    (r : users.row) :
  clock_ordered t cs →
  users_tbl (db_run cs DB.init) !! k = Some r →
  users.joined_at r ≤ users.last_seen r.
Proof.
  intros Hcs E.
  destruct (rows_dated_run cs t DB.init) as [t' Ht']; [|done|].
  - intros k' r'. cbn. by rewrite lookup_empty.
  - apply (Ht' _ _ E).
Qed.

Lemma joined_at_le_last_seen_witness :
  users.joined_at (users.Row [] [] 10 30 1 (Some [120]%N))
  ≤ users.last_seen (users.Row [] [] 10 30 1 (Some [120]%N)).
Proof.
  apply (joined_at_le_last_seen 0
           [UpsertUser 7 None None 10; Ban 7 [120]%N 20; SetLastSeen 7 30]
           7).
  - cbn. lia.
  - reflexivity.
Defined.

(** Without that, the order can be lost: a reading that steps back puts
    [last_seen] before [joined_at]. *)
Lemma clock_stepping_back_breaks_order :
  ∃ r, users_tbl (db_run [UpsertUser 7 None None 10; SetLastSeen 7 5] DB.init)
         !! 7 = Some r
       ∧ users.last_seen r < users.joined_at r.
Proof.
  exists (users.Row [] [] 10 5 0 None). split; [reflexivity | cbn; lia].
Qed.

(** ** Statistics and the snapshot of active users *)

Section snapshot_facts.
Implicit Types (d : Store) (uid k : Z).

Lemma reachable_flags_ok d : reachable d → flags_ok d.
Proof.
  induction 1 as [|uid fn un ts d _ IH|uid ts d _ IH|uid reason ts d _ IH
                  |uid d _ IH|a m ts d _ IH|bid ok fail d _ IH]; intros k r.
  - cbn. by rewrite lookup_empty.
  - destruct (decide (k = uid)) as [->|Hne].
    + rewrite upsert_user_lookup. intros [= <-].
      destruct (users_tbl d !! uid) as [r0|] eqn:E; cbn; [|by left].
      apply (IH _ _ E).
    + rewrite upsert_user_lookup_ne by done. apply IH.
  - destruct (decide (k = uid)) as [->|Hne].
    + rewrite set_last_seen_lookup.
      destruct (users_tbl d !! uid) as [r0|] eqn:E; [|done].
      intros [= <-]. apply (IH _ _ E).
    + rewrite set_last_seen_lookup_ne by done. apply IH.
  - destruct (decide (k = uid)) as [->|Hne].
    + rewrite ban_lookup. intros [= <-].
      destruct (users_tbl d !! uid); cbn; by right.
    + rewrite ban_lookup_ne by done. apply IH.
  - destruct (decide (k = uid)) as [->|Hne].
    + rewrite unban_lookup.
      destruct (users_tbl d !! uid) as [r0|]; [|done].
      intros [= <-]. by left.
    + rewrite unban_lookup_ne by done. apply IH.
  - apply IH.
  - rewrite update_broadcast_result_users. apply IH.
Qed.

Lemma user_ids_active_elem d uid :
  uid ∈ DB.user_ids_active d
  ↔ ∃ r, users_tbl d !! uid = Some r ∧ users.is_banned r = 0.
Proof.
  rewrite user_ids_active_perm, list_elem_of_fmap. split.
  - intros ([k r] & -> & H). apply elem_of_map_to_list in H.
    apply map_lookup_filter_Some in H. by exists r.
  - intros (r & E & Hb). exists (uid, r). split; [done|].
    apply elem_of_map_to_list, map_lookup_filter_Some. done.
Qed.

End snapshot_facts.

(** X3.  [stats] never reports more banned users than users.  In a
    database the methods of [DB] have built from a fresh file, the users
    are the banned ones and the ones [user_ids_active] lists, each counted
    once. *)
Theorem stats_counts (d : Store) :
  ((DB.stats d).2 ≤ (DB.stats d).1)%nat
  ∧ (reachable d →
       (DB.stats d).1
       = ((DB.stats d).2 + length (DB.user_ids_active d))%nat).
Proof.
  unfold DB.stats; cbn. split.
  - apply map_subseteq_size, map_filter_subseteq.
  - intros Hr. pose proof (reachable_flags_ok d Hr) as Hf.
    rewrite user_ids_active_perm, length_fmap, length_map_to_list.
    set (P := λ kr : Z * users.row, users.is_banned kr.2 = 1).
    assert (Hq : filter (λ kr : Z * users.row, users.is_banned kr.2 = 0)
                   (users_tbl d)
                 = filter (λ kr, ¬ P kr) (users_tbl d)).
    { apply map_filter_ext. intros k r E. unfold P; cbn.
      destruct (Hf k r E); lia. }
    rewrite Hq.
    rewrite <- (map_filter_union_complement P (users_tbl d)) at 1.
    apply map_size_disj_union, map_disjoint_filter_complement.
Qed.

Lemma stats_counts_witness :
  let d := DB.ban 5 [65]%N 100
             (DB.upsert_user 3 None None 7
                (DB.upsert_user 9 None None 7 DB.init)) in
  DB.stats d = (3%nat, 1%nat)
  ∧ (DB.stats d).1 = ((DB.stats d).2 + length (DB.user_ids_active d))%nat.
Proof.
  intros d. split; [reflexivity|].
  apply (proj2 (stats_counts d)).
  apply reach_ban, reach_upsert_user, reach_upsert_user, reach_init.
Defined.

(** X4.  [user_ids_active] lists exactly the ids whose row has
    [is_banned = 0], each once.  So [ban] takes its target out of the list
    and leaves the membership of every other id; [unban] puts an id that
    has a row into it. *)
Theorem user_ids_active_spec (d : Store) (uid : Z) :
  (uid ∈ DB.user_ids_active d
   ↔ ∃ r, users_tbl d !! uid = Some r ∧ users.is_banned r = 0)
  ∧ NoDup (DB.user_ids_active d)
  ∧ (∀ reason ts, uid ∉ DB.user_ids_active (DB.ban uid reason ts d))
  ∧ (∀ reason ts k, k ≠ uid →
       k ∈ DB.user_ids_active (DB.ban uid reason ts d)
       ↔ k ∈ DB.user_ids_active d)
  ∧ (is_Some (users_tbl d !! uid) →
       uid ∈ DB.user_ids_active (DB.unban uid d)).
Proof.
  split_and!.
  - apply user_ids_active_elem.
  - apply user_ids_active_NoDup.
  - intros reason ts (r & E & Hb)%user_ids_active_elem.
    rewrite ban_lookup in E. injection E as <-.
    by destruct (users_tbl d !! uid).
  - intros reason ts k Hk. rewrite !user_ids_active_elem.
    by rewrite ban_lookup_ne.
  - intros [r E]. apply user_ids_active_elem.
    rewrite unban_lookup, E. cbn. eauto.
Qed.

Lemma user_ids_active_spec_witness :
  5 ∈ DB.user_ids_active
        (DB.unban 5 (DB.ban 5 [65]%N 100 (DB.upsert_user 3 None None 7 DB.init))).
Proof.
  apply (proj2 (proj2 (proj2 (proj2
    (user_ids_active_spec
       (DB.ban 5 [65]%N 100 (DB.upsert_user 3 None None 7 DB.init)) 5))))).
  eexists. reflexivity.
Defined.

(** ** Broadcast records *)

Section record_facts.
Implicit Types (t : gmap Z broadcasts.row) (k : Z).

Lemma foldr_max_spec (l : list Z) :
  0 ≤ foldr Z.max 0 l
  ∧ (foldr Z.max 0 l = 0 ∨ foldr Z.max 0 l ∈ l).
Proof.
  induction l as [|x l [IH1 IH2]]; cbn; [by split; [|left]|].
  split; [lia|].
  destruct (Z.max_spec x (foldr Z.max 0 l)) as [[_ ->]|[_ ->]].
  - destruct IH2 as [->|?]; [by left | right; by constructor].
  - right. constructor.
Qed.

Lemma elem_of_keys t k : k ∈ (map_to_list t).*1 ↔ is_Some (t !! k).
Proof.
  rewrite list_elem_of_fmap. split.
  - intros ([k' r] & -> & H). apply elem_of_map_to_list in H. by exists r.
  - intros [r E]. exists (k, r). split; [done|]. by apply elem_of_map_to_list.
Qed.

Lemma next_id_after_insert t (r : broadcasts.row) :
  DB.next_id (<[DB.next_id t := r]> t) = DB.next_id t + 1.
Proof.
  set (bid := DB.next_id t).
  assert (Hbid : 1 ≤ bid).
  { subst bid. unfold DB.next_id.
    destruct (foldr_max_spec (map_to_list t).*1). lia. }
  unfold DB.next_id at 1.
  destruct (foldr_max_spec (map_to_list (<[bid:=r]> t)).*1) as [_ Hin].
  assert (Hge : bid ≤ foldr Z.max 0 (map_to_list (<[bid:=r]> t)).*1).
  { apply le_foldr_max, elem_of_keys. rewrite lookup_insert_eq. eauto. }
  destruct Hin as [H0|Hin]; [lia|].
  apply elem_of_keys in Hin.
  destruct (decide (foldr Z.max 0 (map_to_list (<[bid:=r]> t)).*1 = bid))
    as [->|Hne]; [lia|].
  rewrite lookup_insert_ne in Hin by done.
  apply keys_le_max in Hin. fold (DB.next_id t) in *.
  unfold DB.next_id in bid. lia.
Qed.

End record_facts.

(** X5.  The id [log_broadcast] returns is at least 1, is above every id
    in the table and names no record yet; the record it creates has both
    counts 0, and the records there before are as they were.  The next
    [log_broadcast] returns the id after it.  The users are untouched. *)
Theorem log_broadcast_ids (admin_id : Z) (message : text) (ts : Z)
    (d : Store) :
  let bid := (DB.log_broadcast admin_id message ts d).1 in
  let d' := (DB.log_broadcast admin_id message ts d).2 in
  1 ≤ bid
  ∧ broadcasts_tbl d !! bid = None
  ∧ (∀ k, is_Some (broadcasts_tbl d !! k) →
       k < bid ∧ broadcasts_tbl d' !! k = broadcasts_tbl d !! k)
  ∧ broadcasts_tbl d' !! bid
    = Some (broadcasts.Row admin_id message ts 0 0)
  ∧ (∀ admin_id' message' ts',
       (DB.log_broadcast admin_id' message' ts' d').1 = bid + 1)
  ∧ users_tbl d' = users_tbl d.
Proof.
  intros bid d'. subst bid d'. cbn [DB.log_broadcast fst snd].
  split_and!.
  - unfold DB.next_id.
    destruct (foldr_max_spec (map_to_list (broadcasts_tbl d)).*1). lia.
  - apply next_id_fresh.
  - intros k Hk. pose proof (keys_le_max _ _ Hk) as Hle.
    assert (k < DB.next_id (broadcasts_tbl d)) by (unfold DB.next_id; lia).
    split; [done|]. cbn. rewrite lookup_insert_ne by lia. done.
  - cbn. by rewrite lookup_insert_eq.
  - intros a m t'. cbn. apply next_id_after_insert.
  - reflexivity.
Qed.

Lemma log_broadcast_ids_witness :
  (DB.log_broadcast 9 [104]%N 50 DB.init).1 = 1
  ∧ (DB.log_broadcast 9 [105]%N 60 (DB.log_broadcast 9 [104]%N 50 DB.init).2).1
    = 1 + 1.
Proof.
  split; [reflexivity|].
  apply (proj1 (proj2 (proj2 (proj2 (proj2
    (log_broadcast_ids 9 [104]%N 50 DB.init)))))).
Defined.

(** ** The flood guard and the gate, over runs of calls *)

(** X6.  The windows of two ids do not interfere: a call for one id leaves
    the answer of a call for another id as it would have been, and the two
    calls leave the same limiter in either order. *)
Theorem hit_ids_independent (u1 u2 t1 t2 : Z) (self : Flood) :
  u1 ≠ u2 →
  (hit u2 t2 (hit u1 t1 self).2).1 = (hit u2 t2 self).1
  ∧ (hit u2 t2 (hit u1 t1 self).2).2 = (hit u1 t1 (hit u2 t2 self).2).2.
Proof.
  intros Hne. unfold hit; cbn.
  rewrite !lookup_insert_ne by done. split; [done|].
  f_equal. by apply insert_insert_ne.
Qed.

Lemma hit_ids_independent_witness :
  (hit 2 11 (hit 1 10 (MkFlood 8 0 ∅)).2).1 = (hit 2 11 (MkFlood 8 0 ∅)).1
  ∧ (hit 2 11 (hit 1 10 (MkFlood 8 0 ∅)).2).2
    = (hit 1 10 (hit 2 11 (MkFlood 8 0 ∅)).2).2.
Proof. apply (hit_ids_independent 1 2 10 11 (MkFlood 8 0 ∅)). lia. Defined.

Section gate_facts.
Implicit Types (w : World) (u : User) (k : Z).

Lemma guard_db OWNER_ID u t1 t2 t3 w :
  db (guard OWNER_ID (MkUpdate (Some u)) t1 t2 t3 w).2
  = DB.set_last_seen (id u) t2
      (DB.upsert_user (id u) (Some (Py.or_empty (user_first_name u)))
         (Some (Py.or_empty (user_username u))) t1 (db w)).
Proof.
  rewrite guard_user. cbv zeta.
  destruct (DB.is_banned _ _) as [[] reason]; [done|].
  by destruct (negb _).
Qed.

Lemma guard_is_banned OWNER_ID update t1 t2 t3 w k :
  DB.is_banned k (db (guard OWNER_ID update t1 t2 t3 w).2)
  = DB.is_banned k (db w).
Proof.
  destruct update as [[u|]]; [|done]. rewrite guard_db.
  destruct (decide (k = id u)) as [->|Hne].
  - apply is_banned_after_touch.
  - unfold DB.is_banned.
    by rewrite set_last_seen_lookup_ne, upsert_user_lookup_ne.
Qed.

Lemma guards_length OWNER_ID update times w :
  length (guards OWNER_ID update times w).1 = length times.
Proof.
  revert w. induction times as [|[[t1 t2] t3] rest IH]; intros w; [done|].
  cbn. destruct (guard _ _ _ _ _ _) as [b w1].
  specialize (IH w1). destruct (guards _ _ _ _) as [bs w2]. cbn in *.
  by f_equal.
Qed.

End gate_facts.

(** X7.  A run of interactions of one user, with no [ban] or [unban] in
    between.  The gate changes nobody's ban status.  If the user is banned,
    every call is turned away and the limiter is never touched.  If the
    user is the operator and not banned, every call passes, however many
    and however fast, and neither the limiter nor the trace changes.
    Otherwise the answers are those of the limiter, negated, call by call:
    a call that was turned away still counted. *)
Theorem guard_runs (OWNER_ID : Z) (u : User) (times : list (Z * Z * Z))
    (w : World) :
  let update := MkUpdate (Some u) in
  let run := guards OWNER_ID update times w in
  (∀ k, DB.is_banned k (db run.2) = DB.is_banned k (db w))
  ∧ ((DB.is_banned (id u) (db w)).1 = true →
       run.1 = replicate (length times) false ∧ FLOOD run.2 = FLOOD w)
  ∧ ((DB.is_banned (id u) (db w)).1 = false →
       is_admin OWNER_ID update = true →
       run.1 = replicate (length times) true
       ∧ FLOOD run.2 = FLOOD w ∧ out run.2 = out w)
  ∧ ((DB.is_banned (id u) (db w)).1 = false →
       is_admin OWNER_ID update = false →
       run.1 = negb <$> (hits (id u) times.*2 (FLOOD w)).1
       ∧ FLOOD run.2 = (hits (id u) times.*2 (FLOOD w)).2).
Proof.
  intros update run. subst run. revert w.
  induction times as [|[[t1 t2] t3] rest IH]; intros w.
  { cbn. split_and!; done. }
  cbn [guards]. pose proof (guard_user OWNER_ID u t1 t2 t3 w) as Hg.
  cbv zeta in Hg. fold update in Hg.
  pose proof (guard_is_banned OWNER_ID update t1 t2 t3 w) as Hb.
  rewrite is_banned_after_touch in Hg.
  destruct (guard OWNER_ID update t1 t2 t3 w) as [b w1]. cbn [snd] in Hb.
  destruct (IH w1) as (IH1 & IH2 & IH3 & IH4).
  destruct (guards OWNER_ID update rest w1) as [bs w2].
  cbn [fst snd] in *. rewrite (Hb (id u)) in IH2, IH3, IH4.
  split_and!.
  - intros k. by rewrite IH1.
  - intros E. destruct (DB.is_banned (id u) (db w)) as [banned reason].
    cbn in E. subst banned. injection Hg as -> ->.
    destruct (IH2 eq_refl) as [-> ->]. done.
  - intros E Ha. destruct (DB.is_banned (id u) (db w)) as [banned reason].
    cbn in E. subst banned. rewrite Ha in Hg. injection Hg as -> ->.
    destruct (IH3 eq_refl Ha) as (-> & -> & ->). done.
  - intros E Ha. destruct (DB.is_banned (id u) (db w)) as [banned reason].
    cbn in E. subst banned. rewrite Ha in Hg. injection Hg as -> ->.
    destruct (IH4 eq_refl Ha) as (-> & ->). cbn [fmap list_fmap hits].
    unfold hit. cbn [FLOOD fst snd].
    by destruct (hits (id u) rest.*2 _).
Qed.

(** The operator 1 sends twenty messages in one second and is let through
    each time. *)
Lemma guard_runs_witness :
  (guards 1 (MkUpdate (Some (MkUser 1 None None))) (replicate 20 (5, 5, 5))
     (MkWorld DB.init Flood_default [])).1
  = replicate 20 true.
Proof.
  destruct (guard_runs 1 (MkUser 1 None None) (replicate 20 (5, 5, 5))
              (MkWorld DB.init Flood_default []))
    as (_ & _ & H & _).
  destruct H as (H & _); [reflexivity | reflexivity | exact H].
Defined.

(** X8.  What one call of [guard] can touch.  It changes nobody's ban
    status and no broadcast record; it leaves the row and the window of
    every id other than the caller's, and the settings of the limiter.  It
    answers [True] without a word, or [False] with one notice, which says
    why. *)
Theorem guard_footprint (OWNER_ID : Z) (update : Update) (t1 t2 t3 : Z)
    (w : World) :
  let res := guard OWNER_ID update t1 t2 t3 w in
  (∀ k, DB.is_banned k (db res.2) = DB.is_banned k (db w))
  ∧ broadcasts_tbl (db res.2) = broadcasts_tbl (db w)
  ∧ (∀ k, effective_user update ≠ None →
       (∀ u, effective_user update = Some u → k ≠ id u) →
       users_tbl (db res.2) !! k = users_tbl (db w) !! k
       ∧ bucket (FLOOD res.2) !! k = bucket (FLOOD w) !! k)
  ∧ window (FLOOD res.2) = window (FLOOD w)
  ∧ limit (FLOOD res.2) = limit (FLOOD w)
  ∧ ((res.1 = true ∧ out res.2 = out w)
     ∨ (res.1 = false
        ∧ ∃ n, (n = FloodNotice ∨ ∃ r, n = BannedNotice r)
               ∧ out res.2 = out w ++ [Reply n])).
Proof.
  intros res. subst res. split; [apply guard_is_banned|].
  split; [apply guard_frame|].
  destruct update as [[u|]]; cbn [effective_user].
  2:{ cbn. split_and!; try done. by left. }
  split.
  { intros k _ Hk. specialize (Hk u eq_refl). rewrite guard_db.
    rewrite set_last_seen_lookup_ne, upsert_user_lookup_ne by done.
    split; [done|]. rewrite guard_user. cbv zeta.
    destruct (DB.is_banned _ _) as [[] reason]; [done|].
    destruct (negb _); [|done]. unfold hit; cbn.
    by rewrite lookup_insert_ne. }
  rewrite guard_user. cbv zeta.
  destruct (DB.is_banned _ _) as [[] reason].
  { cbn. split_and!; [done..|]. right. split; [done|]. eauto. }
  destruct (negb _).
  2:{ cbn. split_and!; [done..|]. by left. }
  unfold hit; cbn. split_and!; [done..|].
  destruct (bool_decide _); cbn.
  - right. split; [done|]. exists FloodNotice. eauto.
  - left. by rewrite app_nil_r.
Qed.

Lemma guard_footprint_witness :
  let w := MkWorld (DB.ban 4 [120]%N 5 DB.init)
             (MkFlood 8 7 {[4 := [1; 2]]}) [] in
  let res := guard 1 (MkUpdate (Some (MkUser 3 None None))) 10 10 10 w in
  users_tbl (db res.2) !! 4 = users_tbl (db w) !! 4
  ∧ bucket (FLOOD res.2) !! 4 = bucket (FLOOD w) !! 4.
Proof.
  intros w res.
  apply (proj1 (proj2 (proj2
    (guard_footprint 1 (MkUpdate (Some (MkUser 3 None None))) 10 10 10 w)))).
  - discriminate.
  - intros u [= <-]. cbn. lia.
Defined.

(** X9.  First contact.  A user with no row and no window yet, under a
    limit of at least 1, is let in without a word; the row created has
    [joined_at] from the first clock reading, [last_seen] from the second,
    and no ban, and a caller who is not the operator starts a window
    holding this one call. *)
Theorem guard_first_contact (OWNER_ID : Z) (u : User) (t1 t2 t3 : Z)
    (w : World) :
  users_tbl (db w) !! id u = None →
  bucket (FLOOD w) !! id u = None →
  1 ≤ limit (FLOOD w) →
  let update := MkUpdate (Some u) in
  let res := guard OWNER_ID update t1 t2 t3 w in
  res.1 = true
  ∧ out res.2 = out w
  ∧ users_tbl (db res.2) !! id u
    = Some (users.Row (Py.or_empty (user_first_name u))
              (Py.or_empty (user_username u)) t1 t2 0 None)
  ∧ (is_admin OWNER_ID update = false →
       bucket (FLOOD res.2) !! id u = Some [t3])
  ∧ (is_admin OWNER_ID update = true →
       bucket (FLOOD res.2) !! id u = None).
Proof.
  intros Hrow Hwin Hlim update res. subst res.
  assert (Hd : users_tbl (db (guard OWNER_ID update t1 t2 t3 w).2) !! id u
    = Some (users.Row (Py.or_empty (user_first_name u))
              (Py.or_empty (user_username u)) t1 t2 0 None)).
  { unfold update. rewrite guard_db.
    by rewrite set_last_seen_lookup, upsert_user_lookup, Hrow. }
  unfold update in *. rewrite guard_user in *. cbv zeta in *.
  rewrite is_banned_after_touch in *.
  unfold DB.is_banned in *. rewrite Hrow in *. cbn [fst snd] in *.
  destruct (is_admin OWNER_ID _); cbn [negb] in *.
  - split_and!; done.
  - unfold hit in *. rewrite Hwin in *. cbn in *.
    rewrite bool_decide_eq_false_2 by lia. cbn.
    rewrite app_nil_r, lookup_insert_eq. split_and!; done.
Qed.

Lemma guard_first_contact_witness :
  (guard 1 (MkUpdate (Some (MkUser 3 (Some [65]%N) None))) 10 11 12
     (MkWorld DB.init Flood_default [])).1 = true.
Proof.
  apply (guard_first_contact 1 (MkUser 3 (Some [65]%N) None) 10 11 12
           (MkWorld DB.init Flood_default [])).
  - reflexivity.
  - reflexivity.
  - cbn. lia.
Defined.

(** ** The broadcast command, end to end *)

Section command_facts.
Implicit Types (env : Env) (w : World) (u : User).

(** The sends [broadcast] adds, whatever branch it takes. *)
Lemma broadcast_sends env update args t_log w :
  ∃ ids, (ids = [] ∨ ids = DB.user_ids_active (db w))
    ∧ sends (out (broadcast env update args t_log w).2)
      = sends (out w)
        ++ ((λ uid, (uid, Py.strip (Py.join args))) <$> ids).
Proof.
  destruct (decide (Py.strip (Py.join args) = [])) as [Hm|Hm].
  { exists []. split; [by left|]. rewrite broadcast_blank by done.
    cbn [say snd]. by rewrite sends_emit_reply, app_nil_r. }
  destruct (decide (DB.user_ids_active (db w) = [])) as [Hi|Hi].
  { exists []. split; [by left|]. rewrite broadcast_nobody by done.
    destruct (Py.strip (Py.join args)); cbn [say snd];
      by rewrite sends_emit_reply, app_nil_r. }
  destruct (effective_user update) as [u|] eqn:Hu.
  2:{ exists []. split; [by left|]. unfold broadcast. rewrite Hu.
      destruct (Py.strip (Py.join args)); [done|].
      destruct (DB.user_ids_active (db w)); [done|].
      cbn. by rewrite app_nil_r. }
  rewrite (broadcast_unfold env update u args t_log w Hu Hm Hi). cbv zeta.
  destruct (reply_ok env _).
  - exists (DB.user_ids_active (db w)). split; [by right|].
    cbn [say snd]. rewrite sends_emit_edit.
    change (out (broadcast_end ?b ?o ?f ?x)) with (out x).
    destruct (deliver_spec env (Py.strip (Py.join args))
                (length (DB.user_ids_active (db w))) 1
                (DB.user_ids_active (db w)) 0 0
                (emit (Reply (BroadcastStarted
                                (length (DB.user_ids_active (db w)))
                                (broadcast_begin (id u)
                                   (Py.strip (Py.join args)) t_log w).1))
                   (broadcast_begin (id u)
                      (Py.strip (Py.join args)) t_log w).2))
      as (_ & _ & Hs & _).
    rewrite Hs, sends_emit_reply. reflexivity.
  - exists []. split; [by left|]. cbn [snd].
    rewrite sends_emit_reply, app_nil_r. reflexivity.
Qed.

End command_facts.

(** X10.  Whatever branch it takes, [broadcast] sends nothing but the
    trimmed message, to users of the snapshot only, each at most once.  A
    user whose row is banned when the broadcast starts gets nothing. *)
Theorem broadcast_only_to_active (env : Env) (update : Update)
    (args : list text) (t_log : Z) (w : World) :
  let res := broadcast env update args t_log w in
  ∃ ids,
    sends (out res.2)
    = sends (out w) ++ ((λ uid, (uid, Py.strip (Py.join args))) <$> ids)
    ∧ NoDup ids
    ∧ (∀ uid, uid ∈ ids →
         ∃ r, users_tbl (db w) !! uid = Some r ∧ users.is_banned r = 0)
    ∧ (∀ uid, (DB.is_banned uid (db w)).1 = true → uid ∉ ids).
Proof.
  intros res. subst res.
  destruct (broadcast_sends env update args t_log w) as (ids & Hids & Hs).
  exists ids. split; [exact Hs|].
  assert (Hin : ∀ uid, uid ∈ ids →
            ∃ r, users_tbl (db w) !! uid = Some r ∧ users.is_banned r = 0).
  { intros uid Hu. destruct Hids as [->| ->].
    - by apply elem_of_nil in Hu.
    - by apply user_ids_active_elem. }
  split_and!.
  - destruct Hids as [->| ->]; [constructor | apply user_ids_active_NoDup].
  - exact Hin.
  - intros uid Hb Hu. destruct (Hin uid Hu) as (r & E & H0).
    unfold DB.is_banned in Hb. rewrite E in Hb. cbn in Hb.
    apply Z.eqb_eq in Hb. lia.
Qed.

Lemma broadcast_only_to_active_witness :
  let d := DB.ban 5 [65]%N 100
             (DB.upsert_user 3 None None 7
                (DB.upsert_user 9 None None 7 DB.init)) in
  let env := MkEnv (λ _ _, true) (λ _, true) (λ _, false) in
  let res := broadcast env (MkUpdate (Some (MkUser 9 None None)))
               [[104; 105]%N] 50 (MkWorld d Flood_default []) in
  sends (out res.2) = [(3, [104; 105]%N); (9, [104; 105]%N)]
  ∧ ∃ ids, sends (out res.2)
           = [] ++ ((λ uid, (uid, [104; 105]%N)) <$> ids)
           ∧ 5 ∉ ids.
Proof.
  intros d env res. split; [reflexivity|].
  destruct (broadcast_only_to_active env
              (MkUpdate (Some (MkUser 9 None None))) [[104; 105]%N] 50
              (MkWorld d Flood_default []))
    as (ids & Hs & _ & _ & Hb).
  exists ids. split; [exact Hs|]. apply Hb. reflexivity.
Defined.

(** X11.  [/broadcast] from anyone but the operator does nothing: no
    record is written, nothing is sent, and nobody's ban status changes.
    With no operator configured ([OWNER_ID = 0]) this is everyone. *)
Theorem broadcast_cmd_operator_only (OWNER_ID : Z) (env : Env)
    (update : Update) (args : list text) (t1 t2 t3 t_log : Z) (w : World) :
  is_admin OWNER_ID update = false →
  let cmd := broadcast_cmd OWNER_ID env update args t1 t2 t3 t_log w in
  broadcasts_tbl (db cmd.2) = broadcasts_tbl (db w)
  ∧ sends (out cmd.2) = sends (out w)
  ∧ (∀ k, DB.is_banned k (db cmd.2) = DB.is_banned k (db w)).
Proof.
  intros Ha cmd. subst cmd. unfold broadcast_cmd.
  destruct (guard_frame OWNER_ID update t1 t2 t3 w) as [Hb Hs].
  pose proof (guard_is_banned OWNER_ID update t1 t2 t3 w) as Hk.
  destruct (guard OWNER_ID update t1 t2 t3 w) as [pass w1].
  cbn [fst snd] in *. rewrite Ha. cbn [negb].
  destruct pass; cbn [negb say snd]; [|done].
  rewrite sends_emit_reply. done.
Qed.

Lemma broadcast_cmd_operator_only_witness :
  let env := MkEnv (λ _ _, true) (λ _, true) (λ _, false) in
  let w := MkWorld (DB.upsert_user 3 None None 7 DB.init) Flood_default [] in
  let cmd := broadcast_cmd 0 env (MkUpdate (Some (MkUser 3 None None)))
               [[104; 105]%N] 10 10 10 10 w in
  broadcasts_tbl (db cmd.2) = broadcasts_tbl (db w)
  ∧ sends (out cmd.2) = sends (out w)
  ∧ (∀ k, DB.is_banned k (db cmd.2) = DB.is_banned k (db w)).
Proof.
  intros env w cmd.
  apply (broadcast_cmd_operator_only 0 env
           (MkUpdate (Some (MkUser 3 None None))) [[104; 105]%N]
           10 10 10 10 w).
  reflexivity.
Defined.

(** X12.  An accepted [/broadcast] always has a recipient.  In a database
    whose [is_banned] flags are 0 or 1, a caller the gate lets through is
    in the snapshot taken right after; so when the operator sends a
    non-blank message the "No users found" branch is not taken: a record
    is created under the next id, and, once the opening reply is accepted,
    the operator is sent the message too. *)
Theorem accepted_broadcast_has_recipient (OWNER_ID : Z) (env : Env)
    (u : User) (args : list text) (t1 t2 t3 t_log : Z) (w : World) :
  let update := MkUpdate (Some u) in
  let gate := guard OWNER_ID update t1 t2 t3 w in
  let msg := Py.strip (Py.join args) in
  let ids := DB.user_ids_active (db gate.2) in
  let bid := DB.next_id (broadcasts_tbl (db w)) in
  let cmd := broadcast_cmd OWNER_ID env update args t1 t2 t3 t_log w in
  flags_ok (db w) →
  gate.1 = true →
  id u ∈ ids
  ∧ (is_admin OWNER_ID update = true → msg ≠ [] →
       is_Some (broadcasts_tbl (db cmd.2) !! bid)
       ∧ (reply_ok env (BroadcastStarted (length ids) bid) = true →
            (id u, msg) ∈ sends (out cmd.2))).
Proof.
  intros update gate msg ids bid cmd Hf Hpass.
  assert (Hin : id u ∈ ids).
  { subst ids gate. apply user_ids_active_elem.
    unfold update in *. rewrite guard_db.
    rewrite guard_user in Hpass. cbv zeta in Hpass.
    rewrite is_banned_after_touch in Hpass. unfold DB.is_banned in Hpass.
    rewrite set_last_seen_lookup, upsert_user_lookup.
    destruct (users_tbl (db w) !! id u) as [r0|] eqn:E; cbn; [|eauto].
    eexists. split; [done|]. cbn.
    destruct (Hf _ _ E) as [H0|H1]; [done|].
    rewrite H1 in Hpass. done. }
  split; [exact Hin|]. intros Ha Hmsg.
  assert (Hids : ids ≠ []).
  { intros E. rewrite E in Hin. by apply elem_of_nil in Hin. }
  pose proof (guard_frame OWNER_ID update t1 t2 t3 w) as [Hb _].
  fold gate in Hb.
  assert (Hcmd : cmd = broadcast env update args t_log gate.2).
  { subst cmd. unfold broadcast_cmd. fold gate.
    destruct gate as [pass w1]. cbn in Hpass. subst pass.
    by rewrite Ha. }
  rewrite Hcmd. clear Hcmd cmd. clearbody gate.
  destruct gate as [pass w1]. cbn [fst snd] in *.
  rewrite (broadcast_unfold env update u args t_log w1 eq_refl Hmsg Hids).
  cbv zeta. fold msg ids.
  change (broadcast_begin (id u) msg t_log w1).1
    with (DB.next_id (broadcasts_tbl (db w1))).
  rewrite Hb. fold bid.
  set (w0 := (broadcast_begin (id u) msg t_log w1).2).
  assert (Hw0 : broadcasts_tbl (db w0) !! bid
                = Some (broadcasts.Row (id u) msg t_log 0 0)).
  { subst w0. unfold broadcast_begin, DB.log_broadcast.
    cbn [fst snd db broadcasts_tbl]. rewrite Hb. fold bid.
    by rewrite lookup_insert_eq. }
  destruct (reply_ok env (BroadcastStarted (length ids) bid)).
  - set (started := BroadcastStarted (length ids) bid).
    destruct (deliver_spec env msg (length ids) 1 ids 0 0
                (emit (Reply started) w0)) as (Hd & _ & Hs & _).
    cbn [say snd]. split.
    + unfold broadcast_end; cbn [db]. rewrite Hd.
      change (db (emit (Reply started) w0)) with (db w0).
      unfold DB.update_broadcast_result. rewrite Hw0. cbn.
      rewrite lookup_insert_eq. eauto.
    + intros _. rewrite sends_emit_edit.
      change (out (broadcast_end ?b ?o ?f ?x)) with (out x).
      rewrite Hs. apply elem_of_app. right.
      apply list_elem_of_fmap. by exists (id u).
  - cbn [snd]. split; [|done].
    change (db (emit _ w0)) with (db w0). rewrite Hw0. eauto.
Qed.

Lemma accepted_broadcast_has_recipient_witness :
  let env := MkEnv (λ _ _, true) (λ _, true) (λ _, false) in
  let w := MkWorld DB.init Flood_default [] in
  let cmd := broadcast_cmd 9 env (MkUpdate (Some (MkUser 9 None None)))
               [[104; 105]%N] 10 10 10 10 w in
  is_Some (broadcasts_tbl (db cmd.2) !! 1)
  ∧ (9, [104; 105]%N) ∈ sends (out cmd.2).
Proof.
  intros env w cmd.
  destruct (accepted_broadcast_has_recipient 9 env (MkUser 9 None None)
              [[104; 105]%N] 10 10 10 10 w) as [_ H].
  - intros k r. cbn. by rewrite lookup_empty.
  - reflexivity.
  - destruct H as [H1 H2]; [reflexivity | vm_compute; discriminate |].
    split; [exact H1 | apply H2; reflexivity].
Defined.

(** ** Uptime *)

Example uptime_str_93784 : uptime_str 93784 = lit "1d 2h 3m 4s".
Proof. reflexivity. Qed.

Example uptime_str_60 : uptime_str 60 = lit "1m 0s".
Proof. reflexivity. Qed.

(** X13.  The text of [uptime_str] is made of the days, hours, minutes and
    seconds that add up to the uptime, with hours below 24 and minutes and
    seconds below 60; a field that is zero is left out, except the
    seconds, which always close the text.  The days are negative exactly
    when the uptime is. *)
Theorem uptime_str_fields (seconds : Z) :
  ∃ d h m s,
    seconds = 86400 * d + 3600 * h + 60 * m + s
    ∧ 0 ≤ h < 24 ∧ 0 ≤ m < 60 ∧ 0 ≤ s < 60
    ∧ (0 ≤ d ↔ 0 ≤ seconds)
    ∧ uptime_str seconds
      = Py.join (uptime_part d "d" ++ uptime_part h "h" ++ uptime_part m "m"
                 ++ [str_of_Z s ++ lit "s"]).
Proof.
  exists (seconds / 86400), (seconds mod 86400 / 3600),
    (seconds mod 86400 mod 3600 / 60), (seconds mod 86400 mod 3600 mod 60).
  split_and!; try (Z.div_mod_to_equations; lia).
  unfold uptime_str, uptime_part. cbv zeta.
  destruct (_ =? 0), (_ =? 0), (_ =? 0); reflexivity.
Qed.

(** ** Escaping for Markdown *)

Section escape_facts.
Implicit Types (s : text) (c : N).

Lemma esc_md_str_app s1 s2 :
  esc_md_str (s1 ++ s2) = esc_md_str s1 ++ esc_md_str s2.
Proof.
  induction s1 as [|c s1 IH]; [done|]. cbn.
  destruct (md_special c); cbn; by rewrite IH.
Qed.

Lemma esc_md_str_head s c rest :
  esc_md_str s = c :: rest → md_special c = false.
Proof.
  destruct s as [|c0 s]; [done|]. cbn.
  destruct (md_special c0) eqn:E; intros [= <- _]; [reflexivity | exact E].
Qed.

Lemma esc_md_str_inj s1 s2 : esc_md_str s1 = esc_md_str s2 → s1 = s2.
Proof.
  revert s2. induction s1 as [|c1 s1 IH]; intros [|c2 s2]; cbn.
  - done.
  - by destruct (md_special c2).
  - by destruct (md_special c1).
  - destruct (md_special c1) eqn:E1, (md_special c2) eqn:E2.
    + intros [= -> H]. f_equal. by apply IH.
    + intros [= <- H]. symmetry in H. apply esc_md_str_head in H. congruence.
    + intros [= -> H]. apply esc_md_str_head in H. congruence.
    + intros [= -> H]. f_equal. by apply IH.
Qed.

End escape_facts.

(** X14.  In the text [esc_md] returns, every character of the escaped set
    comes right after a backslash.  The text is the argument with
    backslashes added and nothing else: one per character of the set, and
    none at all when the argument has no such character. *)
Theorem esc_md_marks_specials (s : text) :
  (∀ i c, esc_md (Some s) !! i = Some c → md_special c = true →
     ∃ j, i = S j ∧ esc_md (Some s) !! j = Some 92%N)
  ∧ s `sublist_of` esc_md (Some s)
  ∧ length (esc_md (Some s))
    = (length s + length (filter (λ c, md_special c = true) s))%nat
  ∧ ((∀ c, c ∈ s → md_special c = false) → esc_md (Some s) = s).
Proof.
  cbn [esc_md]. split_and!.
  - induction s as [|c0 s IH]; intros i c; [done|]. cbn.
    destruct (md_special c0) eqn:E0.
    + destruct i as [|[|i]]; cbn.
      * intros [= <-]. done.
      * intros [= <-] _. by exists 0%nat.
      * intros Hi Hc. destruct (IH i c Hi Hc) as (j & -> & Hj).
        by exists (S (S j)).
    + destruct i as [|i]; cbn.
      * intros [= <-]. congruence.
      * intros Hi Hc. destruct (IH i c Hi Hc) as (j & -> & Hj).
        by exists (S j).
  - induction s as [|c0 s IH]; [constructor|]. cbn.
    destruct (md_special c0).
    + apply sublist_cons. by apply sublist_skip.
    + by apply sublist_skip.
  - induction s as [|c0 s IH]; [done|]. cbn [esc_md_str].
    destruct (md_special c0) eqn:E0.
    + rewrite filter_cons_True by done. cbn [length]. lia.
    + rewrite filter_cons_False by congruence. cbn [length]. lia.
  - induction s as [|c0 s IH]; [done|]. intros H. cbn.
    rewrite (H c0) by constructor. f_equal. apply IH.
    intros c Hc. apply H. by constructor.
Qed.

Lemma esc_md_marks_specials_witness :
  esc_md (Some (lit "hello world")) = lit "hello world"
  ∧ esc_md (Some (lit "a_b.c")) = [97; 92; 95; 98; 92; 46; 99]%N.
Proof.
  split; [|reflexivity].
  apply (proj2 (proj2 (proj2 (esc_md_marks_specials (lit "hello world"))))).
  intros c Hc. vm_compute in Hc.
  repeat (apply elem_of_cons in Hc as [->|Hc]; [reflexivity|]).
  by apply elem_of_nil in Hc.
Defined.

(** X15.  [esc_md] loses nothing: two texts with the same escaped form are
    the same text. *)
Theorem esc_md_injective (s1 s2 : text) :
  esc_md (Some s1) = esc_md (Some s2) → s1 = s2.
Proof. apply esc_md_str_inj. Qed.

Lemma esc_md_injective_witness : lit "a_b" = lit "a_b".
Proof. apply (esc_md_injective (lit "a_b") (lit "a_b")). reflexivity. Defined.

(** ** The moderation commands *)

Section moderation_facts.
Implicit Types (w : World) (u : User) (r : request) (k : Z).

Lemma guard_banned_refuses OWNER_ID u t1 t2 t3 w :
  (DB.is_banned (id u) (db w)).1 = true →
  (guard OWNER_ID (MkUpdate (Some u)) t1 t2 t3 w).1 = false.
Proof.
  intros Hb. rewrite guard_user. cbv zeta. rewrite is_banned_after_touch.
  destruct (DB.is_banned (id u) (db w)) as [banned reason].
  cbn in Hb. by subst banned.
Qed.

(** A request the gate turns away, or one that does not come from the
    operator, leaves the database the gate leaves. *)
Lemma handle_refused OWNER_ID int r w :
  (guard OWNER_ID (req_update r) (req_times r).1.1 (req_times r).1.2
     (req_times r).2 w).1 = false
  ∨ is_admin OWNER_ID (req_update r) = false →
  db (handle OWNER_ID int r w)
  = db (guard OWNER_ID (req_update r) (req_times r).1.1 (req_times r).1.2
          (req_times r).2 w).2.
Proof.
  destruct r as [update cmd [[t1 t2] t3]]. cbn [req_update req_times fst snd].
  intros H. unfold handle. cbn [req_update req_times req_command].
  destruct cmd as [ok args t_ban|ok args|ok seconds|env args t_log|];
    [unfold ban_cmd|unfold unban_cmd|unfold stats_cmd|unfold broadcast_cmd|done];
    destruct (guard OWNER_ID update t1 t2 t3 w) as [pass w1];
    cbn [fst snd] in *;
    (destruct pass; cbn [negb]; [|done]);
    (destruct H as [H|H]; [done|]); by rewrite H.
Qed.

Lemma handle_refused_frame OWNER_ID int r w :
  (guard OWNER_ID (req_update r) (req_times r).1.1 (req_times r).1.2
     (req_times r).2 w).1 = false
  ∨ is_admin OWNER_ID (req_update r) = false →
  (∀ k, DB.is_banned k (db (handle OWNER_ID int r w)) = DB.is_banned k (db w))
  ∧ broadcasts_tbl (db (handle OWNER_ID int r w)) = broadcasts_tbl (db w).
Proof.
  intros H. rewrite (handle_refused OWNER_ID int r w H). split.
  - intros k. apply guard_is_banned.
  - apply guard_frame.
Qed.

Lemma is_admin_true OWNER_ID update :
  is_admin OWNER_ID update = true →
  OWNER_ID ≠ 0 ∧ ∃ u, effective_user update = Some u ∧ id u = OWNER_ID.
Proof.
  unfold is_admin. destruct (effective_user update) as [u|]; [|done].
  intros [H1 H2]%andb_prop. split.
  - intros ->. done.
  - exists u. split; [done|]. by apply Z.eqb_eq.
Qed.

Lemma serve_locked OWNER_ID int rs w :
  OWNER_ID = 0 ∨ (DB.is_banned OWNER_ID (db w)).1 = true →
  (∀ k, DB.is_banned k (db (serve OWNER_ID int rs w)) = DB.is_banned k (db w))
  ∧ broadcasts_tbl (db (serve OWNER_ID int rs w)) = broadcasts_tbl (db w).
Proof.
  revert w. induction rs as [|r rs IH]; intros w H; [done|].
  cbn [serve foldl]. fold (serve OWNER_ID int rs (handle OWNER_ID int r w)).
  assert (Hr : (guard OWNER_ID (req_update r) (req_times r).1.1
                  (req_times r).1.2 (req_times r).2 w).1 = false
               ∨ is_admin OWNER_ID (req_update r) = false).
  { destruct (is_admin OWNER_ID (req_update r)) eqn:Ea; [|by right].
    left. destruct (is_admin_true _ _ Ea) as (Hne & u & Hu & Hid).
    destruct H as [->|Hb]; [done|].
    destruct (req_update r) as [eu]. cbn in Hu. subst eu.
    apply guard_banned_refuses. by rewrite Hid. }
  destruct (handle_refused_frame OWNER_ID int r w Hr) as [Hk Hbt].
  destruct (IH (handle OWNER_ID int r w)) as [IHk IHb].
  { destruct H as [->|Hb]; [by left | right]. by rewrite Hk. }
  split.
  - intros k. by rewrite IHk, Hk.
  - by rewrite IHb, Hbt.
Qed.

End moderation_facts.

(** X16.  Only the operator moderates.  A request that does not come from
    the operator, whatever the command, changes nobody's ban status and
    writes no broadcast record; [/ban], [/unban] and [/stats] answer it
    with the "Admin only" notice at most, and notify nobody. *)
Theorem only_operator_moderates (OWNER_ID : Z) (int : text → option Z)
    (r : request) (w : World) :
  is_admin OWNER_ID (req_update r) = false →
  (∀ k, DB.is_banned k (db (handle OWNER_ID int r w)) = DB.is_banned k (db w))
  ∧ broadcasts_tbl (db (handle OWNER_ID int r w)) = broadcasts_tbl (db w)
  ∧ (∀ ok args t1 t2 t3 t_ban c,
       c ∈ (ban_cmd OWNER_ID int ok (req_update r) args t1 t2 t3 t_ban w).2 →
       c = AReply AdminOnlyNotice)
  ∧ (∀ ok args t1 t2 t3 c,
       c ∈ (unban_cmd OWNER_ID int ok (req_update r) args t1 t2 t3 w).2 →
       c = AReply AdminOnlyNotice)
  ∧ (∀ ok t1 t2 t3 seconds c,
       c ∈ (stats_cmd OWNER_ID ok (req_update r) t1 t2 t3 seconds w).2 →
       c = AReply AdminOnlyNotice).
Proof.
  intros Ha.
  destruct (handle_refused_frame OWNER_ID int r w (or_intror Ha)) as [Hk Hb].
  split_and!; [exact Hk | exact Hb | | |].
  - intros ok args t1 t2 t3 t_ban c. unfold ban_cmd.
    destruct (guard _ _ _ _ _ _) as [[] w1]; cbn [negb]; rewrite ?Ha;
      cbn; [|by intros ?%elem_of_nil].
    by intros ->%list_elem_of_singleton.
  - intros ok args t1 t2 t3 c. unfold unban_cmd.
    destruct (guard _ _ _ _ _ _) as [[] w1]; cbn [negb]; rewrite ?Ha;
      cbn; [|by intros ?%elem_of_nil].
    by intros ->%list_elem_of_singleton.
  - intros ok t1 t2 t3 seconds c. unfold stats_cmd.
    destruct (guard _ _ _ _ _ _) as [[] w1]; cbn [negb]; rewrite ?Ha;
      cbn; [|by intros ?%elem_of_nil].
    by intros ->%list_elem_of_singleton.
Qed.

Lemma only_operator_moderates_witness :
  let w := MkWorld (DB.upsert_user 3 None None 7 DB.init) Flood_default [] in
  let r := MkRequest (MkUpdate (Some (MkUser 3 None None)))
             (CmdBan true [lit "9"; lit "spam"] 20) (10, 10, 10) in
  DB.is_banned 9 (db (handle 1 (λ _, Some 9) r w)) = (false, None).
Proof.
  intros w r.
  rewrite (proj1 (only_operator_moderates 1 (λ _, Some 9) r w eq_refl) 9).
  reflexivity.
Defined.

(** X17.  [/ban] from the operator, with an id that [int] reads and
    sqlite3 binds.  The target is banned with the words after the id, trimmed, as the reason,
    or with "No reason" when there are none: the stored reason is never
    empty.  Nobody else's status changes.  Once the reply to the operator
    is accepted the target is sent the notice.  From then on the gate
    turns the target away, showing the reason, without touching the
    limiter; this holds of the operator too, when the id is their own. *)
Theorem ban_cmd_bans (OWNER_ID : Z) (int : text → option Z) (ok : bool)
    (update : Update) (a : text) (rest : list text) (uid : Z)
    (t1 t2 t3 t_ban : Z) (w : World) :
  (guard OWNER_ID update t1 t2 t3 w).1 = true →
  is_admin OWNER_ID update = true →
  int a = Some uid →
  sqlite_int uid = true →
  let res := ban_cmd OWNER_ID int ok update (a :: rest) t1 t2 t3 t_ban w in
  let w' := res.1.2 in
  let reason := match Py.strip (Py.join rest) with
                | [] => lit "No reason"
                | r => r
                end in
  reason ≠ []
  ∧ DB.is_banned uid (db w') = (true, Some reason)
  ∧ (∀ k, k ≠ uid → DB.is_banned k (db w') = DB.is_banned k (db w))
  ∧ (ok = true →
       ANotify uid (9940%N :: lit " You are banned." ++ 10%N
                      :: lit "Reason: " ++ reason) ∈ res.2)
  ∧ (∀ OWNER_ID' u' t1' t2' t3', id u' = uid →
       let g := guard OWNER_ID' (MkUpdate (Some u')) t1' t2' t3' w' in
       g.1 = false
       ∧ FLOOD g.2 = FLOOD w'
       ∧ out g.2
         = out w' ++ [Reply (BannedNotice (Some (esc_md (Some reason))))]).
Proof.
  intros Hpass Ha Hint Hid res w' reason.
  pose proof (guard_is_banned OWNER_ID update t1 t2 t3 w) as Hk.
  assert (Hres : res =
    let w1 := (guard OWNER_ID update t1 t2 t3 w).2 in
    let w2 := MkWorld (DB.ban uid reason t_ban (db w1)) (FLOOD w1) (out w1) in
    if ok then
      (Returned, w2,
       [AReply (BannedDone uid (esc_md (Some reason)));
        ANotify uid (9940%N :: lit " You are banned." ++ 10%N
                       :: lit "Reason: " ++ reason)])
    else (Raised, w2, [AReply (BannedDone uid (esc_md (Some reason)))])).
  { subst res. unfold ban_cmd.
    destruct (guard OWNER_ID update t1 t2 t3 w) as [pass w1].
    cbn in Hpass. subst pass. cbn [negb]. rewrite Ha, Hint.
    unfold with_id. rewrite Hid. reflexivity. }
  assert (Hne : reason ≠ []).
  { subst reason. by destruct (Py.strip (Py.join rest)). }
  assert (Hw' : db w' = DB.ban uid reason t_ban
                          (db (guard OWNER_ID update t1 t2 t3 w).2)).
  { subst w'. rewrite Hres. by destruct ok. }
  assert (Hbanned : DB.is_banned uid (db w') = (true, Some reason)).
  { rewrite Hw'. unfold DB.is_banned. rewrite ban_lookup.
    by destruct (users_tbl _ !! uid). }
  split_and!.
  - exact Hne.
  - exact Hbanned.
  - intros k Hne'. rewrite Hw'. unfold DB.is_banned at 1.
    rewrite ban_lookup_ne by done. apply Hk.
  - intros ->. rewrite Hres. cbn. apply elem_of_cons. right. constructor.
  - intros OWNER_ID' u' t1' t2' t3' Hu' g. subst g.
    rewrite guard_user. cbv zeta. rewrite is_banned_after_touch.
    rewrite Hu', Hbanned.
    assert (Ht : Py.truthy (Some reason) = true) by by destruct reason.
    rewrite Ht. done.
Qed.

(** The operator 1 bans the id 1, their own. *)
Lemma ban_cmd_bans_witness :
  let w := MkWorld DB.init Flood_default [] in
  let upd := MkUpdate (Some (MkUser 1 None None)) in
  let w' := (ban_cmd 1 (λ _, Some 1) true upd [lit "1"] 10 10 10 20 w).1.2 in
  DB.is_banned 1 (db w') = (true, Some (lit "No reason"))
  ∧ (guard 1 upd 30 30 30 w').1 = false.
Proof.
  intros w upd w'.
  destruct (ban_cmd_bans 1 (λ _, Some 1) true upd (lit "1") [] 1
              10 10 10 20 w) as (_ & H1 & _ & _ & H2);
    [reflexivity..|].
  split; [exact H1|]. apply (H2 1 (MkUser 1 None None) 30 30 30 eq_refl).
Defined.

(** X18.  [/unban] from the operator, with an id that [int] reads and
    sqlite3 binds, leaves
    the target not banned and with no reason; a row that existed keeps its
    [joined_at], and no row is created for an id that has none.  Nobody
    else's status changes.  The command does not look whether the target
    was banned or known: once the reply is accepted, it reports success
    and sends the target the notice in every case. *)
Theorem unban_cmd_unbans (OWNER_ID : Z) (int : text → option Z) (ok : bool)
    (update : Update) (a : text) (rest : list text) (uid : Z)
    (t1 t2 t3 : Z) (w : World) :
  (guard OWNER_ID update t1 t2 t3 w).1 = true →
  is_admin OWNER_ID update = true →
  int a = Some uid →
  sqlite_int uid = true →
  let gate := (guard OWNER_ID update t1 t2 t3 w).2 in
  let res := unban_cmd OWNER_ID int ok update (a :: rest) t1 t2 t3 w in
  let w' := res.1.2 in
  DB.is_banned uid (db w') = (false, None)
  ∧ (∀ k, k ≠ uid → DB.is_banned k (db w') = DB.is_banned k (db w))
  ∧ (users_tbl (db gate) !! uid = None → db w' = db gate)
  ∧ (∀ r, users_tbl (db gate) !! uid = Some r →
       ∃ r', users_tbl (db w') !! uid = Some r'
             ∧ users.joined_at r' = users.joined_at r)
  ∧ (ok = true →
       res.2 = [AReply (UnbannedDone uid);
                ANotify uid (9989%N :: lit " You are unbanned now.")]).
Proof.
  intros Hpass Ha Hint Hid gate res w'.
  pose proof (guard_is_banned OWNER_ID update t1 t2 t3 w) as Hk.
  fold gate in Hk.
  assert (Hres : res =
    let w2 := MkWorld (DB.unban uid (db gate)) (FLOOD gate) (out gate) in
    if ok then
      (Returned, w2,
       [AReply (UnbannedDone uid);
        ANotify uid (9989%N :: lit " You are unbanned now.")])
    else (Raised, w2, [AReply (UnbannedDone uid)])).
  { subst res gate. unfold unban_cmd.
    destruct (guard OWNER_ID update t1 t2 t3 w) as [pass w1].
    cbn in Hpass. subst pass. cbn [negb]. rewrite Ha, Hint.
    unfold with_id. rewrite Hid. reflexivity. }
  assert (Hw' : db w' = DB.unban uid (db gate)).
  { subst w'. rewrite Hres. by destruct ok. }
  split_and!.
  - rewrite Hw'. unfold DB.is_banned. rewrite unban_lookup.
    by destruct (users_tbl _ !! uid).
  - intros k Hne. rewrite Hw'. unfold DB.is_banned at 1.
    rewrite unban_lookup_ne by done. apply Hk.
  - intros E. rewrite Hw'. unfold DB.unban. by rewrite E.
  - intros r E. rewrite Hw', unban_lookup, E. cbn. eauto.
  - intros ->. by rewrite Hres.
Qed.

(** The operator unbans an id nobody has seen: nothing is stored, and
    success is reported. *)
Lemma unban_cmd_unbans_witness :
  let w := MkWorld DB.init Flood_default [] in
  let upd := MkUpdate (Some (MkUser 1 None None)) in
  let res := unban_cmd 1 (λ _, Some 77) true upd [lit "77"] 10 10 10 w in
  users_tbl (db res.1.2) !! 77 = None
  ∧ res.2 = [AReply (UnbannedDone 77);
             ANotify 77 (9989%N :: lit " You are unbanned now.")].
Proof.
  intros w upd res. split; [reflexivity|].
  destruct (unban_cmd_unbans 1 (λ _, Some 77) true upd (lit "77") [] 77
              10 10 10 w) as (_ & _ & _ & _ & H);
    [reflexivity..|].
  apply H. reflexivity.
Defined.

(** X19.  Lock-out.  Once the operator's own id is banned, or when no
    operator is configured, no sequence of requests, from whomever and to
    whatever handler, changes anybody's ban status or writes a broadcast
    record: the operator cannot lift their own ban. *)
Theorem banned_operator_is_locked_out (OWNER_ID : Z)
    (int : text → option Z) (rs : list request) (w : World) :
  OWNER_ID = 0 ∨ (DB.is_banned OWNER_ID (db w)).1 = true →
  (∀ k, DB.is_banned k (db (serve OWNER_ID int rs w)) = DB.is_banned k (db w))
  ∧ broadcasts_tbl (db (serve OWNER_ID int rs w)) = broadcasts_tbl (db w).
Proof. apply serve_locked. Qed.

(** The operator 1 bans the id 1, then asks to unban it and to ban 2. *)
Lemma banned_operator_is_locked_out_witness :
  let upd := MkUpdate (Some (MkUser 1 None None)) in
  let int := λ s : text, if decide (s = lit "1") then Some 1 else Some 2 in
  let w := serve 1 int [MkRequest upd (CmdBan true [lit "1"] 20) (10, 10, 10)]
             (MkWorld DB.init Flood_default []) in
  let w' := serve 1 int
              [MkRequest upd (CmdUnban true [lit "1"]) (30, 30, 30);
               MkRequest upd (CmdBan true [lit "2"] 40) (40, 40, 40)] w in
  DB.is_banned 1 (db w) = (true, Some (lit "No reason"))
  ∧ DB.is_banned 1 (db w') = (true, Some (lit "No reason"))
  ∧ DB.is_banned 2 (db w') = (false, None).
Proof.
  intros upd int w w'.
  assert (H1 : DB.is_banned 1 (db w) = (true, Some (lit "No reason")))
    by reflexivity.
  assert (H2 : DB.is_banned 2 (db w) = (false, None)) by reflexivity.
  destruct (banned_operator_is_locked_out 1 int
              [MkRequest upd (CmdUnban true [lit "1"]) (30, 30, 30);
               MkRequest upd (CmdBan true [lit "2"] 40) (40, 40, 40)] w)
    as [Hk _].
  - right. by rewrite H1.
  - fold w' in Hk. split_and!; [exact H1 | |].
    + rewrite (Hk 1). exact H1.
    + rewrite (Hk 2). exact H2.
Defined.

(** ** The hashtag generator *)

Section strip_facts.
Context (p : N → bool).
Implicit Types (s : text) (c : N).

Lemma lstrip_of_split s :
  ∃ pre, s = pre ++ lstrip_of p s ∧ Forall (λ c, p c = true) pre.
Proof.
  induction s as [|c s (pre & E & Hpre)]; [by exists []|]. cbn.
  destruct (p c) eqn:Ec.
  - exists (c :: pre). split; [by rewrite <- app_comm_cons, <- E|].
    by constructor.
  - by exists [].
Qed.

Lemma lstrip_of_head s c rest : lstrip_of p s = c :: rest → p c = false.
Proof.
  induction s as [|c0 s IH]; [done|]. cbn.
  destruct (p c0) eqn:E0; [exact IH|]. by intros [= <- _].
Qed.

Lemma lstrip_of_id s : (∀ c, head s = Some c → p c = false) → lstrip_of p s = s.
Proof.
  destruct s as [|c s]; [done|]. intros H. cbn. by rewrite (H c eq_refl).
Qed.

Lemma lstrip_of_Forall (Q : N → Prop) s : Forall Q s → Forall Q (lstrip_of p s).
Proof.
  destruct (lstrip_of_split s) as (pre & E & _). intros H.
  rewrite E in H. by apply Forall_app in H as [_ ?].
Qed.

Lemma strip_of_Forall (Q : N → Prop) s : Forall Q s → Forall Q (strip_of p s).
Proof.
  intros H. unfold strip_of.
  by apply Forall_reverse, lstrip_of_Forall, Forall_reverse, lstrip_of_Forall.
Qed.

Lemma strip_of_last s c : last (strip_of p s) = Some c → p c = false.
Proof.
  unfold strip_of. rewrite last_reverse.
  destruct (lstrip_of p (reverse (lstrip_of p s))) as [|c0 r] eqn:E; [done|].
  cbn. intros [= <-]. by apply lstrip_of_head in E.
Qed.

Lemma strip_of_head s c : head (strip_of p s) = Some c → p c = false.
Proof.
  unfold strip_of. set (a := lstrip_of p s).
  destruct (lstrip_of_split (reverse a)) as (pre & E & Hpre).
  set (b := lstrip_of p (reverse a)) in *.
  assert (Ha : a = reverse b ++ reverse pre).
  { rewrite <- reverse_app, <- E. by rewrite reverse_involutive. }
  destruct (reverse b) as [|c0 r] eqn:Eb; [done|]. cbn. intros [= <-].
  rewrite <- app_comm_cons in Ha. subst a.
  by apply lstrip_of_head in Ha.
Qed.

Lemma strip_of_id s :
  (∀ c, head s = Some c → p c = false) →
  (∀ c, last s = Some c → p c = false) →
  strip_of p s = s.
Proof.
  intros Hh Hl. unfold strip_of. rewrite (lstrip_of_id s Hh).
  rewrite lstrip_of_id; [apply reverse_involutive|].
  intros c. rewrite head_reverse. apply Hl.
Qed.

End strip_facts.

Section tag_facts.
Implicit Types (t tag : text).

Lemma normalize_hashtag_cases tag :
  normalize_hashtag tag = [] ∨ tag_shaped (normalize_hashtag tag).
Proof.
  unfold normalize_hashtag.
  set (w := filter (λ c, is_word c = true) tag).
  assert (Hw : Forall (λ c, is_word c = true) w).
  { apply Forall_forall. by intros c ?%list_elem_of_filter%proj1. }
  pose proof (strip_of_Forall (λ c, (c =? 95)%N) _ w Hw) as Hs.
  pose proof (strip_of_head (λ c, (c =? 95)%N) w) as Hh.
  pose proof (strip_of_last (λ c, (c =? 95)%N) w) as Hl.
  destruct (strip_of _ w) as [|c body] eqn:E; [by left|]. right.
  exists (c :: body). split_and!; [done..| |].
  - intros H. apply Hh in H. done.
  - intros H. apply Hl in H. done.
Qed.

Lemma normalize_hashtag_shaped_id t : tag_shaped t → normalize_hashtag t = t.
Proof.
  intros (body & -> & Hne & Hw & Hh & Hl). unfold normalize_hashtag.
  rewrite filter_cons_False by done.
  assert (Hf : filter (λ c, is_word c = true) body = body).
  { clear -Hw. induction Hw as [|c l Hc _ IH]; [done|].
    by rewrite filter_cons_True, IH. }
  rewrite Hf. rewrite strip_of_id.
  - by destruct body.
  - intros c Hc. apply N.eqb_neq. intros ->. done.
  - intros c Hc. apply N.eqb_neq. intros ->. done.
Qed.

End tag_facts.

(** X20.  [normalize_hashtag] returns the empty string or a well-formed
    hashtag: [#], then characters of [[a-zA-Z0-9_]] only, at least one,
    with no [_] at either end.  It returns the empty string exactly when
    the argument has no letter or digit of ASCII, and it leaves a
    well-formed hashtag as it is, so normalising twice is normalising
    once. *)
Theorem normalize_hashtag_shape (tag : text) :
  (normalize_hashtag tag = [] ∨ tag_shaped (normalize_hashtag tag))
  ∧ (normalize_hashtag tag = []
     ↔ ∀ c, c ∈ tag → is_word c = true → c = 95%N)
  ∧ (tag_shaped tag → normalize_hashtag tag = tag)
  ∧ normalize_hashtag (normalize_hashtag tag) = normalize_hashtag tag.
Proof.
  split_and!.
  - apply normalize_hashtag_cases.
  - unfold normalize_hashtag.
    set (w := filter (λ c, is_word c = true) tag).
    destruct (lstrip_of_split (λ c, (c =? 95)%N) w) as (pre & E & Hpre).
    destruct (lstrip_of_split (λ c, (c =? 95)%N)
                (reverse (lstrip_of (λ c, (c =? 95)%N) w)))
      as (pre2 & E2 & Hpre2).
    fold (strip_of (λ c, (c =? 95)%N) w).
    split.
    + intros Hs.
      assert (Hs' : strip_of (λ c, (c =? 95)%N) w = [])
        by by destruct (strip_of _ w).
      unfold strip_of in Hs'. apply (f_equal reverse) in Hs'.
      rewrite reverse_involutive in Hs'. cbn in Hs'.
      rewrite Hs', app_nil_r in E2. apply (f_equal reverse) in E2.
      rewrite reverse_involutive in E2. rewrite E2 in E.
      intros c Hc Hw.
      assert (Hin : c ∈ w) by by apply list_elem_of_filter.
      rewrite E in Hin. apply N.eqb_eq.
      apply elem_of_app in Hin as [Hin|Hin].
      * rewrite Forall_forall in Hpre. by apply Hpre.
      * rewrite elem_of_reverse in Hin.
        rewrite Forall_forall in Hpre2. by apply Hpre2.
    + intros H.
      assert (Hall : Forall (λ c, (c =? 95)%N = true) w).
      { apply Forall_forall. intros c [Hw Hc]%list_elem_of_filter.
        apply N.eqb_eq. by apply H. }
      pose proof (strip_of_Forall (λ c, (c =? 95)%N) _ w Hall) as Hs.
      pose proof (strip_of_head (λ c, (c =? 95)%N) w) as Hh.
      destruct (strip_of _ w) as [|c r]; [done|].
      apply Forall_cons in Hs as [Hc _]. specialize (Hh c eq_refl).
      congruence.
  - apply normalize_hashtag_shaped_id.
  - destruct (normalize_hashtag_cases tag) as [->|H]; [done|].
    by apply normalize_hashtag_shaped_id.
Qed.

Lemma normalize_hashtag_shape_witness :
  normalize_hashtag (lit "__He-llo_ W_") = lit "#Hello_W"
  ∧ normalize_hashtag (lit "#Hello_W") = lit "#Hello_W".
Proof.
  split; [reflexivity|].
  apply (proj1 (proj2 (proj2 (normalize_hashtag_shape (lit "#Hello_W"))))).
  exists (lit "Hello_W"). split_and!; [reflexivity | done | | done | done].
  repeat constructor.
Defined.

Section keyword_facts.
Context (lower : text → text).
Implicit Types (s cur p x post : text) (parts out : list text)
  (seen : gset text).

Lemma no_sep_before x l :
  Forall (λ c, is_sep c = false) l →
  (∀ c, last x = Some c → is_sep c = true) →
  (∃ k, l = x ++ k) → x = [].
Proof.
  intros Hl Hx [k ->]. destruct (last x) as [c|] eqn:E.
  - pose proof (Hx c eq_refl) as Hc. apply last_Some_elem_of in E.
    apply Forall_app in Hl as [Hl _]. rewrite Forall_forall in Hl.
    rewrite (Hl c E) in Hc. done.
  - by apply last_None in E.
Qed.

Lemma no_sep_after post l :
  Forall (λ c, is_sep c = false) l →
  (∀ c, head post = Some c → is_sep c = true) →
  (∃ k, l = k ++ post) → post = [].
Proof.
  intros Hl Hp [k ->]. destruct post as [|c post]; [done|].
  pose proof (Hp c eq_refl) as Hc.
  apply Forall_app in Hl as [_ Hl]. apply Forall_cons in Hl as [Hl _].
  rewrite Hl in Hc. done.
Qed.

(** The pieces [split_runs] gives, apart from empty ones, are the pieces
    of the text made of the run under way and what is left to read. *)
Lemma split_runs_pieces s cur in_sep p :
  Forall (λ c, is_sep c = false) cur →
  (in_sep = true → cur = []) →
  p ≠ [] →
  p ∈ split_runs cur in_sep s ↔ piece_of (reverse cur ++ s) p.
Proof.
  revert cur in_sep. induction s as [|c s IH]; intros cur in_sep Hcur Hin Hp.
  - cbn [split_runs]. rewrite app_nil_r, list_elem_of_singleton.
    apply Forall_reverse in Hcur. split.
    + intros ->. exists [], []. rewrite app_nil_r. split_and!; done.
    + intros (x & post & E & _ & Hnp & Hx & Hpost).
      assert (x = []) as ->.
      { eapply no_sep_before; [exact Hcur | exact Hx | eauto]. }
      assert (post = []) as ->.
      { eapply no_sep_after; [exact Hcur | exact Hpost |].
        exists p. exact E. }
      by rewrite app_nil_r in E.
  - cbn [split_runs]. destruct (is_sep c) eqn:Ec.
    + assert (Hrest : p ∈ split_runs [] true s ↔ piece_of s p).
      { rewrite (IH [] true); [done | constructor | done | done]. }
      assert (Hgoal : (p = reverse cur ∨ piece_of s p)
                      ↔ piece_of (reverse cur ++ c :: s) p).
      { pose proof Hcur as Hr. apply Forall_reverse in Hr. split.
        - intros [->|(x & post & -> & _ & Hnp & Hx & Hpost)].
          + exists [], (c :: s). split_and!; try done.
            by intros c' [= <-].
          + exists (reverse cur ++ c :: x), post. split_and!; try done.
            * by rewrite <- !app_assoc.
            * intros c'. rewrite last_app, last_cons.
              destruct (last x) as [y|] eqn:Ex.
              -- intros [= <-]. by apply Hx.
              -- by intros [= <-].
        - intros (x & post & E & _ & Hnp & Hx & Hpost).
          apply app_eq_inv in E as [(k & E1 & E2)|(k & E1 & E2)].
          + (* [x] ends inside the run under way *)
            left. assert (x = []) as ->.
            { eapply no_sep_before; [exact Hr | exact Hx | eauto]. }
            rewrite app_nil_l in E1. subst k.
            apply app_eq_inv in E2 as [(k & E3 & E4)|(k & E3 & E4)].
            * destruct k as [|c' k]; [by rewrite app_nil_r in E3|].
              cbn in E4. injection E4 as <- _. subst p.
              apply Forall_app in Hnp as [_ Hnp].
              apply Forall_cons in Hnp as [Hc _]. congruence.
            * assert (k = []) as ->.
              { eapply no_sep_after; [exact Hr | | exists p; exact E3].
                intros c' Hc'. apply Hpost. rewrite E4.
                by destruct k. }
              by rewrite app_nil_r in E3.
          + (* [x] reaches past the run under way *)
            right. destruct k as [|c' k].
            { rewrite app_nil_l in E2. destruct p as [|c' p]; [done|].
              cbn in E2. injection E2 as <- _.
              apply Forall_cons in Hnp as [Hc _]. congruence. }
            cbn in E2. injection E2 as <- ->.
            exists k, post. split_and!; try done.
            intros c'' Hl. apply Hx. subst x.
            rewrite last_app, last_cons, Hl. done. }
      destruct in_sep.
      * rewrite (Hin eq_refl) in *. rewrite Hrest, <- Hgoal. cbn.
        split; [by right|]. intros [->|?]; done.
      * rewrite elem_of_cons, Hrest. exact Hgoal.
    + rewrite (IH (c :: cur) false); [|by constructor|done|done].
      by rewrite reverse_cons, <- app_assoc.
Qed.

Lemma unique_lower_spec parts seen out :
  (∀ x, x ∈ seen ↔ x ∈ out) →
  NoDup out →
  NoDup (unique_lower lower parts seen out)
  ∧ (∀ x, x ∈ unique_lower lower parts seen out →
       x ∈ out ∨ ∃ p, p ∈ parts ∧ x = lower p)
  ∧ (∀ x, x ∈ out → x ∈ unique_lower lower parts seen out)
  ∧ (∀ p, p ∈ parts → lower p ∈ unique_lower lower parts seen out).
Proof.
  revert seen out. induction parts as [|p parts IH]; intros seen out Hs Hn.
  { cbn. split_and!; [done | by left | done | by intros p ?%elem_of_nil]. }
  cbn. destruct (decide (lower p ∈ seen)) as [Hin|Hnin].
  - destruct (IH seen out Hs Hn) as (IH1 & IH2 & IH3 & IH4).
    split_and!; [done| |done|].
    + intros x Hx. destruct (IH2 x Hx) as [?|(q & Hq & ->)]; [by left|].
      right. exists q. split; [by constructor|done].
    + intros q [->|Hq]%elem_of_cons; [|by apply IH4].
      apply IH3. by apply Hs.
  - destruct (IH ({[lower p]} ∪ seen) (out ++ [lower p]))
      as (IH1 & IH2 & IH3 & IH4).
    + intros x. rewrite elem_of_union, elem_of_singleton, elem_of_app,
        list_elem_of_singleton, Hs. tauto.
    + apply NoDup_app. split_and!; [done| |apply NoDup_singleton].
      intros x Hx ->%list_elem_of_singleton. apply Hnin. by apply Hs.
    + split_and!; [done| | |].
      * intros x Hx.
        destruct (IH2 x Hx) as [[?| ->%list_elem_of_singleton]%elem_of_app
                               |(q & Hq & ->)].
        -- by left.
        -- right. exists p. split; [constructor|done].
        -- right. exists q. split; [by constructor|done].
      * intros x Hx. apply IH3, elem_of_app. by left.
      * intros q [->|Hq]%elem_of_cons; [|by apply IH4].
        apply IH3, elem_of_app. right. constructor.
Qed.

End keyword_facts.

(** X21.  [topic_keywords] returns at most ten keywords, no two alike.
    Each is the lowered form of a piece of the trimmed topic (a run of
    characters, as long as it can be, with no white space and none of
    [,.;:!?-_/] in it) that is at least three characters long; and when
    fewer than ten are returned, every such piece has its lowered form
    among them.  A topic that is missing or blank gives none. *)
Theorem topic_keywords_spec (lower : text → text) (topic : option text) :
  let t := Py.strip (Py.or_empty topic) in
  (length (topic_keywords lower topic) ≤ 10)%nat
  ∧ NoDup (topic_keywords lower topic)
  ∧ (∀ kw, kw ∈ topic_keywords lower topic →
       ∃ p, kw = lower p ∧ (3 ≤ length p)%nat ∧ piece_of t p)
  ∧ ((length (topic_keywords lower topic) < 10)%nat →
       ∀ p, piece_of t p → (3 ≤ length p)%nat →
         lower p ∈ topic_keywords lower topic)
  ∧ (t = [] → topic_keywords lower topic = []).
Proof.
  intros t. unfold topic_keywords. fold t.
  set (parts := filter _ (re_split t)).
  assert (Hparts : ∀ p, p ∈ parts ↔ piece_of t p ∧ (3 ≤ length p)%nat).
  { intros p. subst parts. rewrite list_elem_of_filter. unfold re_split.
    split.
    - intros [[Hne Hlen] Hp]. split; [|done].
      by apply (split_runs_pieces t [] false p) in Hp.
    - intros [Hp Hlen].
      assert (Hne : p ≠ []) by (intros ->; cbn in Hlen; lia).
      split; [done|].
      by apply (split_runs_pieces t [] false p). }
  destruct (unique_lower_spec lower parts ∅ []) as (Hn & Hin & _ & Hall).
  { intros x. rewrite elem_of_empty. split; [done|]. by intros ?%elem_of_nil. }
  { constructor. }
  split_and!.
  - rewrite length_take. lia.
  - eapply sublist_NoDup; [exact Hn | apply sublist_take].
  - intros kw Hkw%subseteq_take.
    destruct (Hin kw Hkw) as [?%elem_of_nil|(p & Hp & ->)]; [done|].
    apply Hparts in Hp as [Hp Hlen]. by exists p.
  - intros Hlt p Hp Hlen. rewrite length_take in Hlt.
    rewrite take_ge by lia. apply Hall, Hparts. done.
  - intros E. subst parts. rewrite E. reflexivity.
Qed.

(** The topic "my bike, ok": the piece "bike" is a keyword, "my" and "ok"
    are too short. *)
Lemma topic_keywords_spec_witness :
  lit "bike" ∈ topic_keywords (λ s, s) (Some (lit "my bike, ok"))
  ∧ topic_keywords (λ s, s) (Some (lit "my bike, ok")) = [lit "bike"].
Proof.
  split; [|reflexivity].
  apply (proj1 (proj2 (proj2 (proj2
    (topic_keywords_spec (λ s, s) (Some (lit "my bike, ok")))))));
    [vm_compute; lia | | vm_compute; lia].
  exists (lit "my "), (lit ", ok"). split_and!.
  - reflexivity.
  - done.
  - repeat constructor.
  - intros c [= <-]. reflexivity.
  - intros c [= <-]. reflexivity.
Defined.

Section collect_facts.
Implicit Types (n : Z) (base fillers tags : list text) (seen : gset text).

Lemma tags_ok_snoc seen tags ht :
  tags_ok seen tags → ht ∉ seen → tag_shaped ht →
  tags_ok ({[ht]} ∪ seen) (tags ++ [ht]).
Proof.
  intros (Hs & Hn & Hf) Hnin Hsh. split_and!.
  - intros x. rewrite elem_of_union, elem_of_singleton, elem_of_app,
      list_elem_of_singleton, Hs. tauto.
  - apply NoDup_app. split_and!; [done| |apply NoDup_singleton].
    intros x Hx ->%list_elem_of_singleton. apply Hnin. by apply Hs.
  - apply Forall_app. split; [done|]. by apply Forall_singleton.
Qed.

Lemma collect_tags_spec n base seen tags :
  tags_ok seen tags →
  tags = [] ∨ Z.of_nat (length tags) < n →
  tags_ok (collect_tags n base seen tags).1 (collect_tags n base seen tags).2
  ∧ Z.of_nat (length (collect_tags n base seen tags).2) ≤ Z.max n 1.
Proof.
  revert seen tags. induction base as [|b base IH]; intros seen tags Hok Hlen.
  { cbn. split; [done|]. destruct Hlen as [->|?]; cbn; lia. }
  cbn [collect_tags].
  destruct (normalize_hashtag_cases b) as [E|Hsh].
  { rewrite E. by apply IH. }
  destruct (normalize_hashtag b) as [|c ht] eqn:E.
  { by apply IH. }
  destruct (decide (c :: ht ∈ seen)) as [Hin|Hnin]; [by apply IH|].
  pose proof (tags_ok_snoc seen tags (c :: ht) Hok Hnin Hsh) as Hok'.
  case_bool_decide as Hn.
  - cbn. split; [done|]. rewrite length_app in *. cbn in *.
    destruct Hlen as [->|?]; cbn; lia.
  - apply IH; [done|]. right. lia.
Qed.

Lemma fill_tags_spec n fillers seen tags :
  Forall (λ f, normalize_hashtag f ≠ []) fillers →
  tags_ok seen tags →
  Z.of_nat (length tags) ≤ Z.max n 1 →
  let r := fill_tags n fillers seen tags in
  NoDup r ∧ Forall tag_shaped r
  ∧ Z.of_nat (length r) ≤ Z.max n 1
  ∧ (∀ x, x ∈ tags → x ∈ r)
  ∧ (n ≤ Z.of_nat (length r) ∨ ∀ f, f ∈ fillers → normalize_hashtag f ∈ r).
Proof.
  revert seen tags.
  induction fillers as [|f fillers IH]; intros seen tags Hf Hok Hlen; cbn.
  { destruct Hok as (_ & ? & ?). split_and!; [done..|].
    right. by intros f ?%elem_of_nil. }
  apply Forall_cons in Hf as [Hf0 Hf].
  case_bool_decide as Hn.
  { destruct Hok as (_ & ? & ?). split_and!; [done..|]. by left. }
  destruct (decide (normalize_hashtag f ∈ seen)) as [Hin|Hnin].
  - destruct (IH seen tags Hf Hok Hlen) as (H1 & H2 & H3 & H4 & H5).
    split_and!; [done..|]. destruct H5 as [?|H5]; [by left|]. right.
    intros g [->|Hg]%elem_of_cons; [|by apply H5].
    apply H4. by apply Hok.
  - assert (Hsh : tag_shaped (normalize_hashtag f)).
    { by destruct (normalize_hashtag_cases f). }
    pose proof (tags_ok_snoc seen tags _ Hok Hnin Hsh) as Hok'.
    destruct (IH _ _ Hf Hok') as (H1 & H2 & H3 & H4 & H5).
    { rewrite length_app. cbn. lia. }
    split_and!; [done..| |].
    + intros x Hx. apply H4, elem_of_app. by left.
    + destruct H5 as [?|H5]; [by left|]. right.
      intros g [->|Hg]%elem_of_cons; [|by apply H5].
      apply H4, elem_of_app. right. constructor.
Qed.

Lemma fillers_normalized :
  Forall (λ f, normalize_hashtag f ≠ []) FILLERS
  ∧ NoDup (normalize_hashtag <$> FILLERS)
  ∧ length (normalize_hashtag <$> FILLERS) = 8%nat.
Proof.
  split_and!; [| |reflexivity].
  - apply (bool_decide_unpack _). by vm_compute.
  - apply (bool_decide_unpack _). by vm_compute.
Qed.

End collect_facts.

Lemma make_hashtags_facts (lower : text → text)
    (shuffle : list text → list text) (topic : option text) (n : Z)
    (lang : option text) :
  let r := make_hashtags lower shuffle topic n lang in
  NoDup r
  ∧ Forall tag_shaped r
  ∧ (length r ≤ Z.to_nat n)%nat
  ∧ (Nat.min (Z.to_nat n) 8 ≤ length r)%nat.
Proof.
  intros r. subst r. unfold make_hashtags. cbv zeta.
  set (base := shuffle _).
  assert (Hok0 : tags_ok (∅ : gset text) []).
  { split_and!; [|constructor..]. intros x. rewrite elem_of_empty.
    split; [done|]. by intros ?%elem_of_nil. }
  destruct (collect_tags_spec n base ∅ [] Hok0 (or_introl eq_refl))
    as [Hok Hlen].
  destruct (collect_tags n base ∅ []) as [seen tags]. cbn [fst snd] in *.
  destruct fillers_normalized as (Hf & Hfn & Hfl).
  destruct (fill_tags_spec n FILLERS seen tags Hf Hok Hlen)
    as (H1 & H2 & H3 & _ & H5).
  set (t := fill_tags n FILLERS seen tags) in *.
  assert (Hlow : n ≤ Z.of_nat (length t) ∨ (8 ≤ length t)%nat).
  { destruct H5 as [?|H5]; [by left|]. right. rewrite <- Hfl.
    apply submseteq_length, NoDup_submseteq; [done|].
    intros x (f & -> & Hf')%list_elem_of_fmap. by apply H5. }
  unfold slice_to. destruct (n <? 0) eqn:En.
  - apply Z.ltb_lt in En.
    replace (Z.to_nat (Z.of_nat (length t) + n)) with 0%nat by lia.
    change (take 0 t) with (@nil text).
    split_and!; [constructor | constructor | cbn [length]; lia
                | cbn [length]; lia].
  - apply Z.ltb_ge in En. split_and!.
    + eapply sublist_NoDup; [exact H1 | apply sublist_take].
    + by apply Forall_take.
    + rewrite length_take. lia.
    + rewrite length_take. lia.
Qed.

(** X22.  Whatever the topic, the language, the case mapping and the
    order the shuffle leaves, [make_hashtags] returns well-formed
    hashtags, no two alike, at most [n] of them, and at least [n] or
    eight of them, whichever is less; so it returns none when [n] is
    zero or negative, and may return fewer than [n] when [n] is above
    eight. *)
Theorem make_hashtags_spec (lower : text → text)
    (shuffle : list text → list text) (topic : option text) (n : Z)
    (lang : option text) :
  let r := make_hashtags lower shuffle topic n lang in
  NoDup r
  ∧ Forall tag_shaped r
  ∧ (length r ≤ Z.to_nat n)%nat
  ∧ (Nat.min (Z.to_nat n) 8 ≤ length r)%nat.
Proof. apply make_hashtags_facts. Qed.

(** X23.  [guess_niche] always answers with one of the eight niches of
    [NICHES], whatever the topic: the tags of that niche are always there
    to draw from. *)
Theorem guess_niche_known (lower : text → text) (topic : option text) :
  ∃ words, dict_get (guess_niche lower topic) NICHES = Some words
           ∧ (6 ≤ length words)%nat.
Proof.
  unfold guess_niche. cbv zeta.
  set (t := lower (Py.or_empty topic)).
  assert (Hkeys : ∀ items k, first_niche lower t items = Some k →
            ∃ words, (k, words) ∈ items).
  { induction items as [|[k0 ws] items IH]; intros k; [done|]. cbn.
    destruct (existsb _ ws).
    - intros [= <-]. exists ws. constructor.
    - intros (words & Hin)%IH. exists words. by constructor. }
  assert (Hall : ∀ k words, (k, words) ∈ NICHES →
            ∃ words', dict_get k NICHES = Some words'
                      ∧ (6 ≤ length words')%nat).
  { intros k words Hin. unfold NICHES in Hin.
    repeat (apply elem_of_cons in Hin as [[= -> ->]|Hin];
            [eexists; split; [reflexivity | cbn; lia]|]).
    by apply elem_of_nil in Hin. }
  destruct (first_niche lower t NICHES) as [k|] eqn:E.
  - destruct (Hkeys _ _ E) as (words & Hin). by apply (Hall k words).
  - repeat (match goal with |- context [if ?b then _ else _] =>
              destruct b end;
            [eexists; split; [reflexivity | cbn; lia]|]).
    eexists; split; [reflexivity | cbn; lia].
Qed.

(** X24.  [/hashtags] changes the state as the gate does and no further.
    A caller the gate turns away gets no reply from the handler; one it
    lets in gets exactly one.  A reply with hashtags names one of the three
    languages and a count between 10 and 30, whatever number was asked
    for, and carries the escaped line of between 8 and that many
    well-formed hashtags, no two alike.  A lone number, or a lone language
    name, is taken as an option and not as a topic: the reply is "Topic
    missing". *)
Theorem hashtags_cmd_reply (OWNER_ID : Z) (lower : text → text)
    (shuffle : list text → list text) (digit : N → option Z) (ok : bool)
    (update : Update) (args : list text) (t1 t2 t3 : Z) (w : World) :
  let gate := guard OWNER_ID update t1 t2 t3 w in
  let res := hashtags_cmd OWNER_ID lower shuffle digit ok update args
               t1 t2 t3 w in
  res.1.2 = gate.2
  ∧ length res.2 = (if gate.1 then 1 else 0)%nat
  ∧ (∀ lang n line, HashtagsReply lang n line ∈ res.2 →
       10 ≤ n ≤ 30
       ∧ lang ∈ [lit "hinglish"; lit "english"; lit "hindi"]
       ∧ ∃ tags, line = esc_md (Some (Py.join tags))
                 ∧ NoDup tags ∧ Forall tag_shaped tags
                 ∧ (8 ≤ length tags)%nat ∧ Z.of_nat (length tags) ≤ n)
  ∧ (∀ a, gate.1 = true → args = [a] →
       lower a ∈ [lit "hinglish"; lit "english"; lit "hindi"]
       ∨ is_Some (two_digits digit a) →
       res.2 = [TopicMissing]).
Proof.
  intros gate res. subst res. unfold hashtags_cmd. fold gate.
  destruct gate as [pass w1]. cbn [fst snd].
  destruct pass; cbn [negb]; [|split_and!; try done;
                               by intros ??? ?%elem_of_nil].
  destruct args as [|a0 args0]; [split_and!; try done|].
  { by intros ??? ?%list_elem_of_singleton. }
  set (args := a0 :: args0).
  set (p1 := match last args with
             | Some a => if bool_decide (lower a ∈ _) then _ else _
             | None => _
             end).
  assert (Hlang : p1.1 ∈ [lit "hinglish"; lit "english"; lit "hindi"]).
  { subst p1. destruct (last args) as [a|]; [|by constructor].
    case_bool_decide; [done | by constructor]. }
  destruct p1 as [lang args1] eqn:Ep1. cbn [fst] in Hlang.
  set (p2 := match last args1 with
             | Some a => match two_digits digit a with
                         | Some v => _
                         | None => _
                         end
             | None => _
             end).
  assert (Hn : 10 ≤ p2.1 ≤ 30).
  { subst p2. destruct (last args1) as [a|]; [|cbn; lia].
    destruct (two_digits digit a); cbn; lia. }
  destruct p2 as [n args2] eqn:Ep2. cbn [fst] in Hn.
  split_and!.
  - by destruct (Py.strip (Py.join args2)).
  - by destruct (Py.strip (Py.join args2)).
  - intros lang' n' line.
    destruct (Py.strip (Py.join args2)) as [|c topic];
      intros [=]%list_elem_of_singleton. subst lang' n' line.
    split; [done|]. split; [done|].
    eexists. split; [reflexivity|].
    destruct (make_hashtags_facts lower shuffle (Some (c :: topic)) n
                (Some lang)) as (H1 & H2 & H3 & H4).
    split_and!; [done | done | lia | lia].
  - intros a _ [= -> ->] Ha. subst args p1 p2. cbn [last] in *.
    case_bool_decide as Hl.
    + injection Ep1 as <- <-. cbn in Ep2. injection Ep2 as <- <-. done.
    + destruct Ha as [?|[v Hv]]; [done|].
      injection Ep1 as <- <-. cbn [last] in Ep2. rewrite Hv in Ep2.
      injection Ep2 as <- <-. done.
Qed.

(** [/hashtags 25], with ASCII digits read as such. *)
Lemma hashtags_cmd_reply_witness :
  let digit := λ c : N, if ((48 <=? c) && (c <=? 57))%N
                        then Some (Z.of_N c - 48) else None in
  (hashtags_cmd 1 (λ s, s) (λ l, l) digit true
     (MkUpdate (Some (MkUser 3 None None))) [lit "25"] 10 10 10
     (MkWorld DB.init Flood_default [])).2 = [TopicMissing].
Proof.
  intros digit.
  apply (proj2 (proj2 (proj2
    (hashtags_cmd_reply 1 (λ s, s) (λ l, l) digit true
       (MkUpdate (Some (MkUser 3 None None))) [lit "25"] 10 10 10
       (MkWorld DB.init Flood_default []))))
    (lit "25")).
  - reflexivity.
  - reflexivity.
  - right. eexists. reflexivity.
Defined.

(** ** Ids sqlite3 cannot bind *)

(** X25.  [/ban] and [/unban] from the operator with an id that [int]
    reads but that does not fit 64 signed bits: [db.ban] or [db.unban]
    raises, the handler ends on that exception, and apart from what the
    gate did nothing is written, nobody is banned or unbanned, and there
    is no reply and no notice. *)
Theorem moderation_id_out_of_range (OWNER_ID : Z) (int : text → option Z)
    (ok : bool) (update : Update) (a : text) (rest : list text) (uid : Z)
    (t1 t2 t3 t_ban : Z) (w : World) :
  (guard OWNER_ID update t1 t2 t3 w).1 = true →
  is_admin OWNER_ID update = true →
  int a = Some uid →
  sqlite_int uid = false →
  let gate := (guard OWNER_ID update t1 t2 t3 w).2 in
  ban_cmd OWNER_ID int ok update (a :: rest) t1 t2 t3 t_ban w
  = (Raised, gate, [])
  ∧ unban_cmd OWNER_ID int ok update (a :: rest) t1 t2 t3 w
    = (Raised, gate, [])
  ∧ (∀ k, DB.is_banned k (db gate) = DB.is_banned k (db w)).
Proof.
  intros Hpass Ha Hint Hid gate. subst gate.
  pose proof (guard_is_banned OWNER_ID update t1 t2 t3 w) as Hk.
  unfold ban_cmd, unban_cmd.
  destruct (guard OWNER_ID update t1 t2 t3 w) as [pass w1].
  cbn in Hpass. subst pass. cbn [negb snd] in *. rewrite Ha, Hint.
  unfold with_id. rewrite Hid. cbn [negb]. done.
Qed.

(** The operator asks to ban the id 2^63. *)
Lemma moderation_id_out_of_range_witness :
  let w := MkWorld DB.init Flood_default [] in
  let upd := MkUpdate (Some (MkUser 1 None None)) in
  let res := ban_cmd 1 (λ _, Some 9223372036854775808) true upd
               [lit "9223372036854775808"] 10 10 10 20 w in
  res.1.1 = Raised ∧ res.2 = []
  ∧ users_tbl (db res.1.2) !! 9223372036854775808 = None.
Proof.
  intros w upd res.
  destruct (moderation_id_out_of_range 1 (λ _, Some 9223372036854775808)
              true upd (lit "9223372036854775808") [] 9223372036854775808
              10 10 10 20 w) as (H & _ & _);
    [reflexivity..|].
  subst res. rewrite H. split_and!; reflexivity.
Defined.
